(** * WebLogic container scripts of the weblogic-jms-mp example

    A shallow embedding of the two WLST (Jython) scripts

      - [create-wls-domain.py]   (creates the domain from the template)
      - [setupTestJMSQueue.py]   (provisions the JMS resources)

    Both scripts are recipes of calls into the WLST interpreter.  A script
    is embedded as a tree of such calls whose continuation receives the
    value the call returned; running the tree against an administration
    server yields the list of calls that were issued, the outcome, the
    server state left behind and the lines printed.

    The file has the embedding and the notions used to state properties
    first, then the facts: general ones about runs, then those of each
    script. *)

From Stdlib Require Import ZArith String List Ascii Lia.
From stdpp Require Import base option list strings gmap pretty.

Local Open Scope string_scope.
Local Open Scope Z_scope.
Local Open Scope list_scope.

(** ** Values that cross the interpreter boundary *)

(** A management bean as handed out by [create] and [getMBean]. *)
Inductive mbean : Type :=
| MBean (name : string).

(** A [javax.management.ObjectName], kept as the string it was built from. *)
Inductive object_name : Type :=
| ObjectName (canonical : string).

(** Arguments of a call.  [ABean None] is Python's [None], which is what
    [getMBean] gives for a path that does not exist. *)
Inductive arg : Type :=
| AStr (s : string)
| AInt (n : Z)
| ABean (b : option mbean)
| AObjectNames (l : list object_name).

(** The calls the two scripts make.  [Cmo m args] is [cmo.m(args)], a method
    of the current management object; [OnBean b m args] is a method of a bean
    held in a script variable.  [SystemSetProperty] and [NewObjectName] are
    the two calls into the Java platform. *)
Inductive call : Type :=
| ReadTemplate (path : string)
| SetAttr (name : string) (value : arg)
| SetOption (name value : string)
| Cd (path : string)
| Create (name type : string)
| Cmo (method : string) (args : list arg)
| OnBean (b : mbean) (method : string) (args : list arg)
| GetMBean (path : string)
| WriteDomain (path : string)
| CloseTemplate
| Exit
| SystemSetProperty (key value : string)
| NewObjectName (s : string)
| Connect (user password url : string)
| Get (attr : string)
| Ls (returnMap : string)
| Edit
| StartEdit
| Save
| Activate (block : string)
| Disconnect.

(** What a call returns to the script. *)
Definition resp_type (c : call) : Type :=
  match c with
  | Create _ _ => mbean
  | GetMBean _ => option mbean
  | Get _ => string
  | Ls _ => list string
  | _ => unit
  end.

#[global] Instance mbean_eq_dec : EqDecision mbean.
Proof. solve_decision. Defined.
#[global] Instance object_name_eq_dec : EqDecision object_name.
Proof. solve_decision. Defined.
#[global] Instance arg_eq_dec : EqDecision arg.
Proof. solve_decision. Defined.
#[global] Instance call_eq_dec : EqDecision call.
Proof. solve_decision. Defined.

(** Exceptions raised by the script's own statements. *)
Inductive pyexn : Type :=
| ValueError (literal : string)
| NameError (name : string).

(** ** Scripts *)

Inductive wlst (A : Type) : Type :=
| Ret (a : A)
| Raise (e : pyexn)
| Print (line : string) (k : wlst A)
| Invoke (c : call) (k : resp_type c -> wlst A).

Arguments Ret {A} a.
Arguments Raise {A} e.
Arguments Print {A} line k.
Arguments Invoke {A} c k.

Fixpoint wlst_bind {A B : Type} (f : A -> wlst B) (p : wlst A) : wlst B :=
  match p with
  | Ret a => f a
  | Raise e => Raise e
  | Print line k => Print line (wlst_bind f k)
  | Invoke c k => Invoke c (fun x => wlst_bind f (k x))
  end.

#[global] Instance wlst_ret : MRet wlst := @Ret.
#[global] Instance wlst_mbind : MBind wlst := @wlst_bind.

(** One call, its result handed back. *)
Definition invoke (c : call) : wlst (resp_type c) := Invoke c Ret.

(** The [print] statement. *)
Definition print (line : string) : wlst unit := Print line (Ret tt).

(** [when b p] is [if b: p]. *)
Definition when (b : bool) (p : wlst unit) : wlst unit :=
  if b then p else Ret tt.

(** ** Running a script against an administration server *)

(** How the server answers one call: it returns a value, or the call raises.
    Either way it may have changed the server. *)
Inductive reply (S : Type) (X : Type) : Type :=
| Returned (x : X) (s : S)
| Failed (s : S).

Arguments Returned {S X} x s.
Arguments Failed {S X} s.

Inductive outcome (A : Type) : Type :=
| Done (a : A)
| Uncaught (e : pyexn)
| CallFailed (c : call).

Arguments Done {A} a.
Arguments Uncaught {A} e.
Arguments CallFailed {A} c.

Record result (S A : Type) : Type := mkResult {
  trace : list call;
  out : outcome A;
  final : S;
  stdout : list string
}.

Arguments mkResult {S A}.
Arguments trace {S A}.
Arguments out {S A}.
Arguments final {S A}.
Arguments stdout {S A}.

Definition server (S : Type) : Type := forall c : call, S -> reply S (resp_type c).

Definition issued {S A} (c : call) (r : result S A) : result S A :=
  mkResult (c :: trace r) (out r) (final r) (stdout r).

Definition printed {S A} (line : string) (r : result S A) : result S A :=
  mkResult (trace r) (out r) (final r) (line :: stdout r).

(** No statement of either script catches an exception, so a call that
    raises ends the run. *)
Fixpoint run {S A : Type} (srv : server S) (p : wlst A) (s : S) : result S A :=
  match p with
  | Ret a => mkResult [] (Done a) s []
  | Raise e => mkResult [] (Uncaught e) s []
  | Print line k => printed line (run srv k s)
  | Invoke c k =>
      match srv c s with
      | Returned x s' => issued c (run srv (k x) s')
      | Failed s' => mkResult [c] (CallFailed c) s' []
      end
  end.

(** ** The Python builtins the scripts use *)

(** [os.environ.get(key, dflt)] *)
Definition environ_get (environ : gmap string string) (key dflt : string) : string :=
  default dflt (environ !! key).

Definition is_space (a : ascii) : bool :=
  bool_decide (a ∈ [" "; "009"; "010"; "011"; "012"; "013"]%char).

Fixpoint lstrip (s : string) : string :=
  match s with
  | String a s' => if is_space a then lstrip s' else s
  | EmptyString => EmptyString
  end.

Definition strip (s : string) : string :=
  String.rev (lstrip (String.rev (lstrip s))).

Definition digit_value (a : ascii) : option Z :=
  let n := Z.of_nat (nat_of_ascii a) in
  if bool_decide (48 <= n <= 57) then Some (n - 48) else None.

Fixpoint digits_value (acc : Z) (s : string) : option Z :=
  match s with
  | EmptyString => Some acc
  | String a s' =>
      match digit_value a with
      | Some d => digits_value (10 * acc + d) s'
      | None => None
      end
  end.

Definition unsigned_value (s : string) : option Z :=
  match s with
  | EmptyString => None
  | _ => digits_value 0 s
  end.

(** [int(s)] for a string: blanks around, an optional sign, decimal digits;
    anything else is a [ValueError]. *)
Definition py_int (s : string) : option Z :=
  match strip s with
  | String "-" r => Z.opp <$> unsigned_value r
  | String "+" r => unsigned_value r
  | t => unsigned_value t
  end.

Definition int (s : string) : wlst Z :=
  match py_int s with
  | Some n => Ret n
  | None => Raise (ValueError s)
  end.

(** ['%s' % n] for an integer. *)
Definition str_of_int (n : Z) : string := pretty n.

(** A global name of the script that no statement of it assigns: WLST binds
    such names from the properties file it is started with. *)
Definition global (globals : gmap string string) (name : string) : wlst string :=
  match globals !! name with
  | Some v => Ret v
  | None => Raise (NameError name)
  end.

(** ** create-wls-domain.py *)

Module CreateWlsDomain.

Record config : Type := mkConfig {
  domain_name : string;
  admin_name : string;
  admin_listen_port : Z;
  domain_path : string;
  production_mode : string;
  administration_port_enabled : string;
  administration_port : Z
}.

(** Lines 25-31: the values taken from the environment. *)
Definition read_environ (environ : gmap string string) : wlst config :=
  let domain_name := environ_get environ "DOMAIN_NAME" "base_domain" in
  let admin_name := environ_get environ "ADMIN_NAME" "AdminServer" in
  admin_listen_port ← int (environ_get environ "ADMIN_LISTEN_PORT" "7001");
  let domain_path := "/u01/oracle/user_projects/domains/" +:+ domain_name in
  let production_mode := environ_get environ "PRODUCTION_MODE" "prod" in
  let administration_port_enabled :=
    environ_get environ "ADMINISTRATION_PORT_ENABLED" "true" in
  administration_port ← int (environ_get environ "ADMINISTRATION_PORT" "9002");
  mret (mkConfig domain_name admin_name admin_listen_port domain_path
          production_mode administration_port_enabled administration_port).

(** Lines 33-39. *)
Definition print_config (cfg : config) : wlst unit :=
  print ("domain_name                 : [" +:+ domain_name cfg +:+ "]");;
  print ("admin_listen_port           : [" +:+ str_of_int (admin_listen_port cfg) +:+ "]");;
  print ("domain_path                 : [" +:+ domain_path cfg +:+ "]");;
  print ("production_mode             : [" +:+ production_mode cfg +:+ "]");;
  print ("admin name                  : [" +:+ admin_name cfg +:+ "]");;
  print ("administration_port_enabled : [" +:+ administration_port_enabled cfg +:+ "]");;
  print ("administration_port         : [" +:+ str_of_int (administration_port cfg) +:+ "]").

(** The test [administration_port_enabled != "false"] of lines 50 and 64. *)
Definition port_enabled (cfg : config) : bool :=
  negb (String.eqb (administration_port_enabled cfg) "false").

(** Lines 43-104. *)
Definition configure (cfg : config) (globals : gmap string string) : wlst unit :=
  invoke (ReadTemplate "/u01/oracle/wlserver/common/templates/wls/wls.jar");;
  invoke (SetAttr "Name" (AStr (domain_name cfg)));;
  invoke (SetOption "DomainName" (domain_name cfg));;
  when (port_enabled cfg) (
    invoke (SetAttr "AdministrationPort" (AInt (administration_port cfg)));;
    invoke (SetAttr "AdministrationPortEnabled" (AStr "false")));;
  invoke (Cd "/Servers/AdminServer");;
  invoke (SetAttr "Name" (AStr (admin_name cfg)));;
  invoke (SetAttr "ListenAddress" (AStr ""));;
  invoke (SetAttr "ListenPort" (AInt (admin_listen_port cfg)));;
  when (port_enabled cfg) (
    invoke (Create (admin_name cfg) "SSL");;
    invoke (Cd ("SSL/" +:+ admin_name cfg));;
    invoke (SetAttr "Enabled" (AStr "True")));;
  invoke (Cd ("/Security/" +:+ domain_name cfg +:+ "/User/weblogic"));;
  username ← global globals "username";
  invoke (Cmo "setName" [AStr username]);;
  password ← global globals "password";
  invoke (Cmo "setPassword" [AStr password]);;
  invoke (SetOption "OverwriteDomain" "true");;
  invoke (SetOption "ServerStartMode" (production_mode cfg));;
  invoke (WriteDomain (domain_path cfg));;
  invoke CloseTemplate;;
  invoke Exit.

Definition script (environ globals : gmap string string) : wlst unit :=
  cfg ← read_environ environ;
  print_config cfg;;
  configure cfg globals.

End CreateWlsDomain.

(** ** setupTestJMSQueue.py *)

Module SetupTestJMSQueue.

Definition sub_deployment_name : string := "TestJMSSubdeployment".
Definition jms_module_name : string := "TestJMSModule".
Definition queue_name : string := "TestQueue".
Definition factory_name : string := "TestConnectionFactory".
Definition jms_server_name : string := "TestJMSServer".

Definition createJMSServer (adm_name jms_server_name : string) : wlst unit :=
  invoke (Cd "/JMSServers");;
  servers ← invoke (Ls "true");
  when (bool_decide (length servers = 0%nat)) (
    print ("No JMS Server found, creating " +:+ jms_server_name);;
    invoke (Cd "/");;
    invoke (Cmo "createJMSServer" [AStr jms_server_name]);;
    invoke (Cd ("/JMSServers/" +:+ jms_server_name));;
    target ← invoke (GetMBean ("/Servers/" +:+ adm_name));
    invoke (Cmo "addTarget" [ABean target])).

(** The loop of lines 53-54, appending to the script's [list] (here [lst]). *)
Fixpoint append_object_names (lst : list object_name) (jms_servers : list string)
  : wlst (list object_name) :=
  match jms_servers with
  | [] => mret lst
  | i :: rest =>
      let s := "com.bea:Name=" +:+ i +:+ ",Type=JMSServer" in
      invoke (NewObjectName s);;
      append_object_names (lst ++ [ObjectName s]) rest
  end.

Definition createJMSModule (jms_module_name adm_name sub_deployment_name : string)
  : wlst unit :=
  print ("Creating JMS module " +:+ jms_module_name);;
  invoke (Cd "/JMSServers");;
  jms_servers ← invoke (Ls "true");
  invoke (Cd "/");;
  module ← invoke (Create jms_module_name "JMSSystemResource");
  target ← invoke (GetMBean ("Servers/" +:+ adm_name));
  invoke (OnBean module "addTarget" [ABean target]);;
  invoke (Cd ("/SystemResources/" +:+ jms_module_name));;
  invoke (OnBean module "createSubDeployment" [AStr sub_deployment_name]);;
  invoke (Cd ("/SystemResources/" +:+ jms_module_name +:+ "/SubDeployments/"
              +:+ sub_deployment_name));;
  lst ← append_object_names [] jms_servers;
  invoke (SetAttr "Targets" (AObjectNames lst)).

Definition getJMSModulePath (jms_module_name : string) : string :=
  "/JMSSystemResources/" +:+ jms_module_name +:+ "/JMSResource/" +:+ jms_module_name.

Definition createJMSQueue (jms_module_name jms_queue_name : string) : wlst unit :=
  print ("Creating JMS queue " +:+ jms_queue_name);;
  let jms_module_path := getJMSModulePath jms_module_name in
  invoke (Cd jms_module_path);;
  invoke (Cmo "createQueue" [AStr jms_queue_name]);;
  invoke (Cd (jms_module_path +:+ "/Queues/" +:+ jms_queue_name));;
  invoke (Cmo "setJNDIName" [AStr ("jms/" +:+ jms_queue_name)]);;
  invoke (Cmo "setSubDeploymentName" [AStr sub_deployment_name]).

Definition createDistributedJMSQueue (jms_module_name jms_queue_name : string)
  : wlst unit :=
  print ("Creating distributed JMS queue " +:+ jms_queue_name);;
  let jms_module_path := getJMSModulePath jms_module_name in
  invoke (Cd jms_module_path);;
  invoke (Cmo "createDistributedQueue" [AStr jms_queue_name]);;
  invoke (Cd (jms_module_path +:+ "/DistributedQueues/" +:+ jms_queue_name));;
  invoke (Cmo "setJNDIName" [AStr ("jms/" +:+ jms_queue_name)]).

Definition addMemberQueue (udd_name queue_name : string) : wlst unit :=
  let jms_module_path := getJMSModulePath jms_module_name in
  invoke (Cd (jms_module_path +:+ "/DistributedQueues/" +:+ udd_name));;
  invoke (Cmo "setLoadBalancingPolicy" [AStr "Round-Robin"]);;
  invoke (Cmo "createDistributedQueueMember" [AStr queue_name]).

Definition createJMSFactory (jms_module_name jms_fact_name : string) : wlst unit :=
  print ("Creating JMS connection factory " +:+ jms_fact_name);;
  let jms_module_path := getJMSModulePath jms_module_name in
  invoke (Cd jms_module_path);;
  invoke (Cmo "createConnectionFactory" [AStr jms_fact_name]);;
  invoke (Cd (jms_module_path +:+ "/ConnectionFactories/" +:+ jms_fact_name));;
  invoke (Cmo "setJNDIName" [AStr ("jms/" +:+ jms_fact_name)]);;
  invoke (Cmo "setSubDeploymentName" [AStr sub_deployment_name]).

(** The statements of the script in order.  The script is run in a process
    environment like any other but reads nothing from it. *)
Definition script (environ : gmap string string) : wlst unit :=
  invoke (SystemSetProperty "weblogic.security.SSL.ignoreHostnameVerification" "true");;
  invoke (Connect "admin" "Welcome1" "t3://localhost:7001");;
  adm_name ← invoke (Get "AdminServerName");
  invoke Edit;;
  invoke StartEdit;;
  print ("Server name: " +:+ adm_name);;
  createJMSServer adm_name jms_server_name;;
  createJMSModule jms_module_name adm_name sub_deployment_name;;
  createJMSFactory jms_module_name factory_name;;
  createJMSQueue jms_module_name queue_name;;
  createDistributedJMSQueue jms_module_name "udd_queue";;
  createJMSQueue jms_module_name "ms1@udd_queue";;
  createJMSQueue jms_module_name "ms2@udd_queue";;
  addMemberQueue "udd_queue" "ms1@udd_queue";;
  addMemberQueue "udd_queue" "ms2@udd_queue";;
  invoke Save;;
  invoke (Activate "true");;
  invoke Disconnect.

End SetupTestJMSQueue.

(** ** A small administration server to run the scripts against

    The theorems below hold for every [server]; this one supplies concrete
    runs.  It keeps the current directory and the names of the JMS servers,
    lists them under [/JMSServers], and accepts every call. *)

Module Sample.

Record state : Type := mkState {
  cwd : string;
  jms_servers : list string
}.

Definition fresh : state := mkState "/" [].

Definition accept : server state := fun c s =>
  match c return reply state (resp_type c) with
  | Cd path => Returned tt (mkState path (jms_servers s))
  | Ls _ =>
      Returned (if String.eqb (cwd s) "/JMSServers" then jms_servers s else []) s
  | Cmo "createJMSServer" [AStr name] =>
      Returned tt (mkState (cwd s) (jms_servers s ++ [name]))
  | Create name _ => Returned (MBean name) s
  | GetMBean path => Returned (Some (MBean path)) s
  | Get _ => Returned "AdminServer" s
  | ReadTemplate _ | SetAttr _ _ | SetOption _ _ | Cmo _ _ | OnBean _ _ _
  | WriteDomain _ | CloseTemplate | Exit | SystemSetProperty _ _
  | NewObjectName _ | Connect _ _ _ | Edit | StartEdit | Save | Activate _
  | Disconnect => Returned tt s
  end.

(** The same server taking [n] calls only: every later call raises.  The
    state carries the number of calls still to be accepted. *)
Definition failing : server (nat * state) := fun c '(n, s) =>
  match n with
  | O => Failed (O, s)
  | S n' =>
      match accept c s with
      | Returned x s' => Returned x (n', s')
      | Failed s' => Failed (n', s')
      end
  end.

End Sample.

(** ** Notions about runs *)

Section RunNotions.

Context {S : Type} (srv : server S).

(** The server state a call leaves behind, and whether the call returned. *)
Definition effect (c : call) (s : S) : S :=
  match srv c s with
  | Returned _ s' => s'
  | Failed s' => s'
  end.

Definition accepted (c : call) (s : S) : bool :=
  match srv c s with
  | Returned _ _ => true
  | Failed _ => false
  end.

(** The state after a list of calls, each applied to what the previous ones
    left. *)
Fixpoint after (cs : list call) (s : S) : S :=
  match cs with
  | [] => s
  | c :: cs' => after cs' (effect c s)
  end.

Fixpoint all_accepted (cs : list call) (s : S) : bool :=
  match cs with
  | [] => true
  | c :: cs' => accepted c s && all_accepted cs' (effect c s)
  end.

(** [sequel r f] continues a finished run [r] with [f]; a run that was cut
    short stays as it is. *)
Definition sequel {A B} (r : result S A) (f : A -> S -> result S B) : result S B :=
  match out r with
  | Done a =>
      let r' := f a (final r) in
      mkResult (trace r ++ trace r') (out r') (final r') (stdout r ++ stdout r')
  | Uncaught e => mkResult (trace r) (Uncaught e) (final r) (stdout r)
  | CallFailed c => mkResult (trace r) (CallFailed c) (final r) (stdout r)
  end.

End RunNotions.

(** Fail-fast behaviour of a script [p] whose last statement is the call
    [terminating]: the server is left as the issued calls made it; a call
    that raises is the last call of the run, all calls before it having
    returned; and the run succeeds exactly when its last call is the
    terminating one and no call raised. *)
Definition stops_at_first_failure {S} (srv : server S) (p : wlst unit)
    (terminating : call) (s : S) : Prop :=
  let r := run srv p s in
  final r = after srv (trace r) s
  /\ (forall c, out r = CallFailed c ->
        exists pre,
          trace r = pre ++ [c]
          /\ all_accepted srv pre s = true
          /\ accepted srv c (after srv pre s) = false)
  /\ (out r = Done tt <->
      last (trace r) = Some terminating /\ all_accepted srv (trace r) s = true).

(** [wp p Q]: whatever the server does, the calls issued by [p] and the way
    the run ends satisfy [Q].  The first conjunct of the [Invoke] case is the
    run in which that call raises. *)
Fixpoint wp {A} (p : wlst A) (Q : list call -> outcome A -> Prop) : Prop :=
  match p with
  | Ret a => Q [] (Done a)
  | Raise e => Q [] (Uncaught e)
  | Print _ k => wp k Q
  | Invoke c k => Q [c] (CallFailed c) /\ forall x, wp (k x) (fun t o => Q (c :: t) o)
  end.

(** The rule for sequencing: [Q] is owed by the rest of the script only when
    the first part ran to its end. *)
Definition wp_then {A B} (f : A -> wlst B) (Q : list call -> outcome B -> Prop)
    (t : list call) (o : outcome A) : Prop :=
  match o with
  | Done a => wp (f a) (fun t' o' => Q (t ++ t') o')
  | Uncaught e => Q t (Uncaught e)
  | CallFailed c => Q t (CallFailed c)
  end.

(** [all_calls P p]: whatever the server answers, [p] issues only calls
    satisfying [P]. *)
Fixpoint all_calls {A} (P : call -> Prop) (p : wlst A) : Prop :=
  match p with
  | Ret _ | Raise _ => True
  | Print _ k => all_calls P k
  | Invoke c k => P c /\ forall x, all_calls P (k x)
  end.

(** [silent p]: whatever the server answers, [p] prints nothing. *)
Fixpoint silent {A} (p : wlst A) : Prop :=
  match p with
  | Ret _ | Raise _ => True
  | Print _ _ => False
  | Invoke c k => forall x, silent (k x)
  end.

(** A function without branches and loops: its calls are an initial part
    of [l], and all of [l] when it returns. *)
Definition straight_line (l : list call) (t : list call) (o : outcome unit) : Prop :=
  t `prefix_of` l /\ (o = Done tt -> t = l).

(** ** The domain script: its calls, listed *)

Module DomainCalls.
Import CreateWlsDomain.

(** The call statements of lines 43-104 in the order of the text; the two
    guarded blocks are there when the test of lines 50 and 64 passes. *)
Definition steps (cfg : config) (username password : string) : list call :=
  [ ReadTemplate "/u01/oracle/wlserver/common/templates/wls/wls.jar";
    SetAttr "Name" (AStr (domain_name cfg));
    SetOption "DomainName" (domain_name cfg) ]
  ++ (if port_enabled cfg
      then [ SetAttr "AdministrationPort" (AInt (administration_port cfg));
             SetAttr "AdministrationPortEnabled" (AStr "false") ]
      else [])
  ++ [ Cd "/Servers/AdminServer";
       SetAttr "Name" (AStr (admin_name cfg));
       SetAttr "ListenAddress" (AStr "");
       SetAttr "ListenPort" (AInt (admin_listen_port cfg)) ]
  ++ (if port_enabled cfg
      then [ Create (admin_name cfg) "SSL";
             Cd ("SSL/" +:+ admin_name cfg);
             SetAttr "Enabled" (AStr "True") ]
      else [])
  ++ [ Cd ("/Security/" +:+ domain_name cfg +:+ "/User/weblogic");
       Cmo "setName" [AStr username];
       Cmo "setPassword" [AStr password];
       SetOption "OverwriteDomain" "true";
       SetOption "ServerStartMode" (production_mode cfg);
       WriteDomain (domain_path cfg);
       CloseTemplate;
       Exit ].

(** How a run of [configure] can end, in terms of [steps]. *)
Definition ending (cfg : config) (globals : gmap string string)
    (t : list call) (o : outcome unit) : Prop :=
  let username := default "" (globals !! "username") in
  let password := default "" (globals !! "password") in
  t `prefix_of` steps cfg username password
  /\ match o with
     | Done _ =>
         globals !! "username" = Some username
         /\ globals !! "password" = Some password
         /\ t = steps cfg username password
     | Uncaught e =>
         last t = Some (Cd ("/Security/" +:+ domain_name cfg +:+ "/User/weblogic"))
         \/ last t = Some (Cmo "setName" [AStr username])
     | CallFailed c => last t = Some c
     end.

(** [starts_with pre s]: the string [s] begins with [pre]. *)
Fixpoint starts_with (pre s : string) : bool :=
  match pre with
  | EmptyString => true
  | String a pre' =>
      match s with
      | String b s' => Ascii.eqb a b && starts_with pre' s'
      | EmptyString => false
      end
  end.

(** The calls of the two guarded blocks (lines 51-52 and 65-67), told by
    their shape. *)
Definition in_guarded_block (c : call) : bool :=
  match c with
  | SetAttr name _ =>
      String.eqb name "AdministrationPort"
      || String.eqb name "AdministrationPortEnabled"
      || String.eqb name "Enabled"
  | Create _ type => String.eqb type "SSL"
  | Cd path => starts_with "SSL/" path
  | _ => false
  end.

End DomainCalls.

(** ** The messaging script: its calls, listed *)

Module QueueCalls.
Import SetupTestJMSQueue.

(** The name built at line 54 for the JMS server [i]. *)
Definition target_name (i : string) : string :=
  "com.bea:Name=" +:+ i +:+ ",Type=JMSServer".

(** The calls of each function of the script when none of them raises, in
    the order of the text. *)
Definition server_calls (adm_name jms_server_name : string) (target : option mbean)
  : list call :=
  [ Cd "/";
    Cmo "createJMSServer" [AStr jms_server_name];
    Cd ("/JMSServers/" +:+ jms_server_name);
    GetMBean ("/Servers/" +:+ adm_name);
    Cmo "addTarget" [ABean target] ].

Definition module_calls (jms_module_name adm_name sub_deployment_name : string)
    (jms_servers : list string) (module : mbean) (target : option mbean)
  : list call :=
  [ Cd "/JMSServers";
    Ls "true";
    Cd "/";
    Create jms_module_name "JMSSystemResource";
    GetMBean ("Servers/" +:+ adm_name);
    OnBean module "addTarget" [ABean target];
    Cd ("/SystemResources/" +:+ jms_module_name);
    OnBean module "createSubDeployment" [AStr sub_deployment_name];
    Cd ("/SystemResources/" +:+ jms_module_name +:+ "/SubDeployments/"
        +:+ sub_deployment_name) ]
  ++ map (fun i => NewObjectName (target_name i)) jms_servers
  ++ [ SetAttr "Targets"
         (AObjectNames (map (fun i => ObjectName (target_name i)) jms_servers)) ].

Definition queue_calls (jms_module_name jms_queue_name : string) : list call :=
  [ Cd (getJMSModulePath jms_module_name);
    Cmo "createQueue" [AStr jms_queue_name];
    Cd (getJMSModulePath jms_module_name +:+ "/Queues/" +:+ jms_queue_name);
    Cmo "setJNDIName" [AStr ("jms/" +:+ jms_queue_name)];
    Cmo "setSubDeploymentName" [AStr sub_deployment_name] ].

Definition distributed_queue_calls (jms_module_name jms_queue_name : string)
  : list call :=
  [ Cd (getJMSModulePath jms_module_name);
    Cmo "createDistributedQueue" [AStr jms_queue_name];
    Cd (getJMSModulePath jms_module_name +:+ "/DistributedQueues/"
        +:+ jms_queue_name);
    Cmo "setJNDIName" [AStr ("jms/" +:+ jms_queue_name)] ].

Definition member_calls (udd_name queue_name : string) : list call :=
  [ Cd (getJMSModulePath jms_module_name +:+ "/DistributedQueues/" +:+ udd_name);
    Cmo "setLoadBalancingPolicy" [AStr "Round-Robin"];
    Cmo "createDistributedQueueMember" [AStr queue_name] ].

Definition factory_calls (jms_module_name jms_fact_name : string) : list call :=
  [ Cd (getJMSModulePath jms_module_name);
    Cmo "createConnectionFactory" [AStr jms_fact_name];
    Cd (getJMSModulePath jms_module_name +:+ "/ConnectionFactories/"
        +:+ jms_fact_name);
    Cmo "setJNDIName" [AStr ("jms/" +:+ jms_fact_name)];
    Cmo "setSubDeploymentName" [AStr sub_deployment_name] ].

(** Lines 20-23, 95-96 and the first two calls of [createJMSServer]: what
    the script does up to and including its listing of the JMS servers. *)
Definition opening_calls : list call :=
  [ SystemSetProperty "weblogic.security.SSL.ignoreHostnameVerification" "true";
    Connect "admin" "Welcome1" "t3://localhost:7001";
    Get "AdminServerName";
    Edit;
    StartEdit;
    Cd "/JMSServers";
    Ls "true" ].

(** The rest of the script once [createJMSServer] has the listing
    [servers]: lines 34-38 under the test of line 33, then lines 101-115. *)
Definition after_listing (adm_name : string) (servers : list string) : wlst unit :=
  when (bool_decide (length servers = 0%nat)) (
    print ("No JMS Server found, creating " +:+ jms_server_name);;
    invoke (Cd "/");;
    invoke (Cmo "createJMSServer" [AStr jms_server_name]);;
    invoke (Cd ("/JMSServers/" +:+ jms_server_name));;
    target ← invoke (GetMBean ("/Servers/" +:+ adm_name));
    invoke (Cmo "addTarget" [ABean target]));;
  createJMSModule jms_module_name adm_name sub_deployment_name;;
  createJMSFactory jms_module_name factory_name;;
  createJMSQueue jms_module_name queue_name;;
  createDistributedJMSQueue jms_module_name "udd_queue";;
  createJMSQueue jms_module_name "ms1@udd_queue";;
  createJMSQueue jms_module_name "ms2@udd_queue";;
  addMemberQueue "udd_queue" "ms1@udd_queue";;
  addMemberQueue "udd_queue" "ms2@udd_queue";;
  invoke Save;;
  invoke (Activate "true");;
  invoke Disconnect.

(** The calls of [after_listing] when none raises. *)
Definition provision_calls (adm_name : string) (servers : list string)
    (target1 : option mbean) (servers2 : list string) (module : mbean)
    (target2 : option mbean) : list call :=
  (if servers is [] then server_calls adm_name jms_server_name target1 else [])
  ++ module_calls jms_module_name adm_name sub_deployment_name servers2 module target2
  ++ factory_calls jms_module_name factory_name
  ++ queue_calls jms_module_name queue_name
  ++ distributed_queue_calls jms_module_name "udd_queue"
  ++ queue_calls jms_module_name "ms1@udd_queue"
  ++ queue_calls jms_module_name "ms2@udd_queue"
  ++ member_calls "udd_queue" "ms1@udd_queue"
  ++ member_calls "udd_queue" "ms2@udd_queue"
  ++ [ Save; Activate "true"; Disconnect ].

(** What the server answers to the script's first listing of the JMS
    servers (nothing, if that call raises). *)
Definition first_listing {S} (srv : server S) (s : S) : list string :=
  match srv (Ls "true") (after srv (removelast opening_calls) s) with
  | Returned servers _ => servers
  | Failed _ => []
  end.

(** What can be said of every call [after_listing] may issue: the names
    it passes are the literals of lines 24-28 and 106-111, it creates a JMS
    server only on an empty listing, and it does not connect. *)
Definition provision_call (servers : list string) (c : call) : Prop :=
  match c with
  | Connect _ _ _ => False
  | Create name type => name = "TestJMSModule" /\ type = "JMSSystemResource"
  | Cmo method args =>
      (method = "createJMSServer" ->
         servers = [] /\ args = [AStr "TestJMSServer"])
      /\ (method = "addTarget" -> servers = [])
      /\ (method = "createConnectionFactory" ->
            args = [AStr "TestConnectionFactory"])
      /\ (method = "createQueue" ->
            args = [AStr "TestQueue"] \/ args = [AStr "ms1@udd_queue"]
            \/ args = [AStr "ms2@udd_queue"])
      /\ (method = "createDistributedQueue" -> args = [AStr "udd_queue"])
      /\ (method = "createDistributedQueueMember" ->
            args = [AStr "ms1@udd_queue"] \/ args = [AStr "ms2@udd_queue"])
  | OnBean _ method args =>
      method = "createSubDeployment" -> args = [AStr "TestJMSSubdeployment"]
  | _ => True
  end.

(** The calls that create a JMS server, a JMS module, a connection factory,
    a queue, a distributed queue or a member of a distributed queue.  (The
    sub-deployment that [createJMSModule] makes on the module it has just
    created is part of that step.) *)
Definition is_creation (c : call) : bool :=
  match c with
  | Create _ type => String.eqb type "JMSSystemResource"
  | Cmo method _ =>
      String.eqb method "createJMSServer"
      || String.eqb method "createConnectionFactory"
      || String.eqb method "createQueue"
      || String.eqb method "createDistributedQueue"
      || String.eqb method "createDistributedQueueMember"
  | _ => false
  end.

(** The order the specification gives: server, module, factory, queue,
    distributed queue, member queues, members. *)
Definition creation_order : list call :=
  [ Cmo "createJMSServer" [AStr "TestJMSServer"];
    Create "TestJMSModule" "JMSSystemResource";
    Cmo "createConnectionFactory" [AStr "TestConnectionFactory"];
    Cmo "createQueue" [AStr "TestQueue"];
    Cmo "createDistributedQueue" [AStr "udd_queue"];
    Cmo "createQueue" [AStr "ms1@udd_queue"];
    Cmo "createQueue" [AStr "ms2@udd_queue"];
    Cmo "createDistributedQueueMember" [AStr "ms1@udd_queue"];
    Cmo "createDistributedQueueMember" [AStr "ms2@udd_queue"] ].

(** The credentials, the target and the resource names of lines 22-28 and
    106-111, as a property of one call. *)
Definition names_are_literals (c : call) : Prop :=
  match c with
  | Connect user password url =>
      user = "admin" /\ password = "Welcome1" /\ url = "t3://localhost:7001"
  | Create name type => name = "TestJMSModule" /\ type = "JMSSystemResource"
  | Cmo method args =>
      (method = "createJMSServer" -> args = [AStr "TestJMSServer"])
      /\ (method = "createConnectionFactory" ->
            args = [AStr "TestConnectionFactory"])
      /\ (method = "createQueue" ->
            args = [AStr "TestQueue"] \/ args = [AStr "ms1@udd_queue"]
            \/ args = [AStr "ms2@udd_queue"])
      /\ (method = "createDistributedQueue" -> args = [AStr "udd_queue"])
      /\ (method = "createDistributedQueueMember" ->
            args = [AStr "ms1@udd_queue"] \/ args = [AStr "ms2@udd_queue"])
  | OnBean _ method args =>
      method = "createSubDeployment" -> args = [AStr "TestJMSSubdeployment"]
  | _ => True
  end.

(** The calls that create a JMS resource inside the module or set its
    JNDI name or sub-deployment. *)
Definition is_resource_setting (c : call) : bool :=
  match c with
  | Cmo method _ =>
      String.eqb method "createConnectionFactory"
      || String.eqb method "createQueue"
      || String.eqb method "createDistributedQueue"
      || String.eqb method "setJNDIName"
      || String.eqb method "setSubDeploymentName"
  | _ => false
  end.

(** What the server answers to get('AdminServerName') at line 23 (the empty
    string, if that call raises). *)
Definition admin_server_name {S} (srv : server S) (s : S) : string :=
  match srv (Get "AdminServerName") (after srv (take 2 opening_calls) s) with
  | Returned name _ => name
  | Failed _ => ""
  end.

(** The rest of [createJMSModule] once it has the listing [jms_servers]:
    lines 45-55. *)
Definition module_after_listing (jms_module_name adm_name sub_deployment_name : string)
    (jms_servers : list string) : wlst unit :=
  invoke (Cd "/");;
  module ← invoke (Create jms_module_name "JMSSystemResource");
  target ← invoke (GetMBean ("Servers/" +:+ adm_name));
  invoke (OnBean module "addTarget" [ABean target]);;
  invoke (Cd ("/SystemResources/" +:+ jms_module_name));;
  invoke (OnBean module "createSubDeployment" [AStr sub_deployment_name]);;
  invoke (Cd ("/SystemResources/" +:+ jms_module_name +:+ "/SubDeployments/"
              +:+ sub_deployment_name));;
  lst ← append_object_names [] jms_servers;
  invoke (SetAttr "Targets" (AObjectNames lst)).

(** The calls that change the configuration: creating a bean, setting an
    attribute, invoking a method of a bean. *)
Definition is_modifying (c : call) : bool :=
  match c with
  | Create _ _ | Cmo _ _ | OnBean _ _ _ | SetAttr _ _ => true
  | _ => false
  end.

(** The creating calls of a run that reaches the end, given the first
    listing of the JMS servers. *)
Definition creations (servers : list string) : list call :=
  (if servers is [] then [Cmo "createJMSServer" [AStr "TestJMSServer"]] else [])
  ++ [ Create "TestJMSModule" "JMSSystemResource";
       Cmo "createConnectionFactory" [AStr "TestConnectionFactory"];
       Cmo "createQueue" [AStr "TestQueue"];
       Cmo "createDistributedQueue" [AStr "udd_queue"];
       Cmo "createQueue" [AStr "ms1@udd_queue"];
       Cmo "createQueue" [AStr "ms2@udd_queue"];
       Cmo "createDistributedQueueMember" [AStr "ms1@udd_queue"];
       Cmo "createDistributedQueueMember" [AStr "ms2@udd_queue"] ].

End QueueCalls.

(** ** General facts about runs *)

Section Runs.

Context {S : Type} (srv : server S).

Lemma run_bind {A B} (p : wlst A) (f : A -> wlst B) (s : S) :
  run srv (p ≫= f) s = sequel (run srv p s) (fun a s' => run srv (f a) s').
Proof.
  revert s. induction p as [a|e|line k IH|c k IH]; intros s; cbn.
  - unfold sequel; cbn. by destruct (run srv (f a) s).
  - reflexivity.
  - change (wlst_bind f k) with (k ≫= f). rewrite IH.
    unfold sequel; cbn. destruct (out (run srv k s)); reflexivity.
  - destruct (srv c s) as [x s'|s']; [|reflexivity].
    change (wlst_bind f (k x)) with (k x ≫= f). rewrite IH.
    unfold sequel; cbn. destruct (out (run srv (k x) s')); reflexivity.
Qed.

Lemma after_app (cs1 cs2 : list call) (s : S) :
  after srv (cs1 ++ cs2) s = after srv cs2 (after srv cs1 s).
Proof. revert s. induction cs1 as [|c cs1 IH]; intros s; cbn; [done|apply IH]. Qed.

(** The server is left exactly as the issued calls, in their order, made it:
    nothing is undone and nothing is added. *)
Lemma final_after {A} (p : wlst A) (s : S) :
  final (run srv p s) = after srv (trace (run srv p s)) s.
Proof.
  revert s. induction p as [a|e|line k IH|c k IH]; intros s; cbn; try done.
  destruct (srv c s) as [x s'|s'] eqn:E; cbn; unfold effect; rewrite E;
    [apply IH|done].
Qed.

(** A run ends at the first call that raises: that call is the last one of
    the trace, and every call before it returned. *)
Lemma failure_is_last {A} (p : wlst A) (s : S) (c : call) :
  out (run srv p s) = CallFailed c ->
  exists pre, trace (run srv p s) = pre ++ [c]
    /\ all_accepted srv pre s = true
    /\ accepted srv c (after srv pre s) = false.
Proof.
  revert s. induction p as [a|e|line k IH|c' k IH]; intros s; cbn; try done.
  { apply IH. }
  destruct (srv c' s) as [x s'|s'] eqn:E; cbn.
  - intros H. destruct (IH x s' H) as (pre & Ht & Ha & Hc).
    exists (c' :: pre). cbn. unfold accepted at 1, effect. rewrite E, Ht. done.
  - intros [= <-]. exists []. cbn. unfold accepted. by rewrite E.
Qed.

(** In a run that was not cut short by a call, every issued call returned. *)
Lemma no_failure_all_accepted {A} (p : wlst A) (s : S) :
  (forall c, out (run srv p s) <> CallFailed c) ->
  all_accepted srv (trace (run srv p s)) s = true.
Proof.
  revert s. induction p as [a|e|line k IH|c' k IH]; intros s; cbn; try done.
  - apply IH.
  - destruct (srv c' s) as [x s'|s'] eqn:E; cbn; unfold accepted, effect;
      rewrite E; cbn.
    + apply IH.
    + intros H. by destruct (H c').
Qed.

Lemma all_accepted_app (cs1 cs2 : list call) (s : S) :
  all_accepted srv (cs1 ++ cs2) s
  = all_accepted srv cs1 s && all_accepted srv cs2 (after srv cs1 s).
Proof.
  revert s. induction cs1 as [|c cs1 IH]; intros s; cbn; [done|].
  by rewrite IH, andb_assoc.
Qed.

Lemma wp_run {A} (p : wlst A) (Q : list call -> outcome A -> Prop) (s : S) :
  wp p Q -> Q (trace (run srv p s)) (out (run srv p s)).
Proof.
  revert Q s. induction p as [a|e|line k IH|c k IH]; intros Q s; cbn.
  - done.
  - done.
  - apply IH.
  - intros [Hf Hk]. destruct (srv c s) as [x s'|s']; cbn; [|done].
    apply (IH x (fun t o => Q (c :: t) o)), Hk.
Qed.

End Runs.

Lemma wp_mono {A} (p : wlst A) (Q Q' : list call -> outcome A -> Prop) :
  (forall t o, Q t o -> Q' t o) -> wp p Q -> wp p Q'.
Proof.
  revert Q Q'. induction p as [a|e|line k IH|c k IH]; intros Q Q' HQ; cbn.
  - apply HQ.
  - apply HQ.
  - by apply IH.
  - intros [Hf Hk]. split; [by apply HQ|].
    intros x. eapply IH; [|apply Hk]. intros t o. apply HQ.
Qed.

Lemma wp_bind {A B} (p : wlst A) (f : A -> wlst B)
    (Q : list call -> outcome B -> Prop) :
  wp p (wp_then f Q) -> wp (p ≫= f) Q.
Proof.
  revert Q. induction p as [a|e|line k IH|c k IH]; intros Q; cbn.
  - done.
  - done.
  - apply (IH Q).
  - intros [Hf Hk]. split; [done|]. intros x.
    apply (IH x (fun t o => Q (c :: t) o)).
    eapply wp_mono; [|apply Hk]. by intros t [a|e|c'].
Qed.

Lemma all_calls_bind {A B} (P : call -> Prop) (p : wlst A) (f : A -> wlst B) :
  all_calls P p -> (forall a, all_calls P (f a)) -> all_calls P (p ≫= f).
Proof.
  intros Hp Hf. induction p as [a|e|line k IH|c k IH]; cbn in *.
  - apply Hf.
  - exact I.
  - by apply IH.
  - destruct Hp as [Hc Hk]. split; [done|]. intros x. by apply IH.
Qed.

Lemma all_calls_wp {A} (P : call -> Prop) (p : wlst A) :
  all_calls P p -> wp p (fun t _ => Forall P t).
Proof.
  induction p as [a|e|line k IH|c k IH]; cbn.
  - constructor.
  - constructor.
  - apply IH.
  - intros [Hc Hk]. split; [by repeat constructor|].
    intros x. eapply wp_mono; [|apply (IH x), Hk].
    intros t o Ht. by constructor.
Qed.

Lemma all_calls_trace {S A} (srv : server S) (P : call -> Prop) (p : wlst A) (s : S) :
  all_calls P p -> Forall P (trace (run srv p s)).
Proof.
  intros H. apply (wp_run srv p (fun t _ => Forall P t) s), all_calls_wp, H.
Qed.

Lemma Forall_prefix {A} (P : A -> Prop) (t l : list A) :
  t `prefix_of` l -> Forall P l -> Forall P t.
Proof. intros [k ->] H. by apply Forall_app in H as [H _]. Qed.

Lemma stops_at_first_failure_intro {S} (srv : server S) (p : wlst unit)
    (terminating : call) (s : S) :
  (out (run srv p s) = Done tt -> last (trace (run srv p s)) = Some terminating) ->
  (forall e, out (run srv p s) = Uncaught e ->
     last (trace (run srv p s)) <> Some terminating) ->
  stops_at_first_failure srv p terminating s.
Proof.
  intros Hdone Hexn. split; [apply final_after|].
  split; [intros c; apply failure_is_last|].
  split.
  - intros H. split; [by apply Hdone|].
    apply no_failure_all_accepted. intros c. by rewrite H.
  - intros [Hlast Hall].
    destruct (out (run srv p s)) as [[]|e|c] eqn:Ho; [done| |].
    + by destruct (Hexn e).
    + destruct (failure_is_last srv p s c Ho) as (pre & Ht & _ & Hc).
      rewrite Ht, all_accepted_app in Hall. cbn in Hall.
      rewrite Hc in Hall. by rewrite andb_false_r in Hall.
Qed.

(** Calls that the server accepts one after the other: so does it every
    initial part of them. *)
Lemma all_accepted_prefix {S} (srv : server S) (t l : list call) (s : S) :
  t `prefix_of` l -> all_accepted srv l s = true -> all_accepted srv t s = true.
Proof.
  intros [k ->]. rewrite all_accepted_app. by intros [H _]%andb_true_iff.
Qed.

(** A run cut short by a call has met a call the server does not accept:
    no list of calls that begins with the run's calls is accepted. *)
Lemma failed_call_not_accepted {S A} (srv : server S) (p : wlst A) (s : S)
    (c : call) (l : list call) :
  out (run srv p s) = CallFailed c ->
  trace (run srv p s) `prefix_of` l ->
  all_accepted srv l s = false.
Proof.
  intros Ho Hpre.
  destruct (failure_is_last srv p s c Ho) as (pre & Ht & _ & Hc).
  destruct (all_accepted srv l s) eqn:Hall; [|done].
  pose proof (all_accepted_prefix srv _ _ s Hpre Hall) as H.
  rewrite Ht, all_accepted_app in H. cbn in H.
  rewrite Hc in H. by rewrite andb_false_r in H.
Qed.

(** Progress, call by call.  Let the calls of a run be an initial part of
    [l], and let the run end before its call number [k] only through a call
    that raises.  Then call number [k] of [l] is issued as soon as the
    server accepts the [k] calls before it. *)
Lemma issued_when_accepted {S A} (srv : server S) (p : wlst A) (s : S)
    (l : list call) (k : nat) :
  trace (run srv p s) `prefix_of` l ->
  ((length (trace (run srv p s)) <= k)%nat -> (k < length l)%nat ->
     exists c, out (run srv p s) = CallFailed c) ->
  all_accepted srv (take k l) s = true ->
  trace (run srv p s) !! k = l !! k.
Proof.
  intros Hpre Hstop Hall.
  destruct (decide (k < length (trace (run srv p s)))%nat) as [Hlt|Hge].
  { by apply prefix_lookup_lt. }
  destruct (decide (k < length l)%nat) as [Hk|Hk].
  2:{ rewrite (lookup_ge_None_2 l k) by lia. apply lookup_ge_None_2. lia. }
  destruct (Hstop ltac:(lia) Hk) as [c Hc].
  assert (Hpre' : trace (run srv p s) `prefix_of` take k l).
  { destruct Hpre as [rest Hrest]. rewrite Hrest.
    rewrite take_app_ge by lia. by eexists. }
  by rewrite (failed_call_not_accepted srv p s c _ Hc Hpre') in Hall.
Qed.

(** Progress to the end: a run that raises no exception of its own and
    whose calls are an initial part of calls the server accepts returns. *)
Lemma done_when_accepted {S} (srv : server S) (p : wlst unit) (s : S)
    (l : list call) :
  trace (run srv p s) `prefix_of` l ->
  (forall e, out (run srv p s) <> Uncaught e) ->
  all_accepted srv l s = true ->
  out (run srv p s) = Done tt.
Proof.
  intros Hpre Hexn Hall.
  destruct (out (run srv p s)) as [[]|e|c] eqn:Ho;
    [done|by destruct (Hexn e)|].
  by rewrite (failed_call_not_accepted srv p s c l Ho Hpre) in Hall.
Qed.

(** Both for a function without branches and loops that raises no exception
    of its own. *)
Lemma straight_line_progress {S} (srv : server S) (p : wlst unit) (s : S)
    (l : list call) :
  straight_line l (trace (run srv p s)) (out (run srv p s)) ->
  (forall e, out (run srv p s) <> Uncaught e) ->
  (forall k, all_accepted srv (take k l) s = true ->
     trace (run srv p s) !! k = l !! k)
  /\ (all_accepted srv l s = true -> out (run srv p s) = Done tt).
Proof.
  intros [Hpre Hdone] Hexn. split.
  - intros k. apply issued_when_accepted; [done|].
    intros Hshort Hk.
    destruct (out (run srv p s)) as [[]|e|c] eqn:Ho.
    + rewrite (Hdone eq_refl) in Hshort. lia.
    + by destruct (Hexn e).
    + by exists c.
  - by apply done_when_accepted.
Qed.

(** Unfolds a script into its tree of calls. *)
Ltac script_tree :=
  unfold invoke, print;
  cbn [wlst_bind mbind wlst_mbind mret wlst_ret when].

(** Splits a [wp] or [all_calls] goal over a script without loops into one
    goal per place where the run may end. *)
Ltac each_ending :=
  cbn [wp wp_then all_calls];
  repeat match goal with
         | |- _ /\ _ => split
         | |- forall _, _ => intro
         end.

Ltac prefix_done := repeat (apply prefix_cons); apply prefix_nil.

Ltac straight_line_wp :=
  unfold straight_line; script_tree; each_ending;
  solve [ repeat (apply prefix_cons); apply prefix_nil | reflexivity | discriminate ].

(** ** The domain script: what it reads and the calls it makes *)

Module DomainFacts.
Import CreateWlsDomain DomainCalls.

(** [read_environ] either yields the configuration or stops with the
    [ValueError] of one of its two [int] conversions. *)
Lemma read_environ_eq (environ : gmap string string) :
  read_environ environ =
    match py_int (environ_get environ "ADMIN_LISTEN_PORT" "7001") with
    | None => Raise (ValueError (environ_get environ "ADMIN_LISTEN_PORT" "7001"))
    | Some listen_port =>
        match py_int (environ_get environ "ADMINISTRATION_PORT" "9002") with
        | None => Raise (ValueError (environ_get environ "ADMINISTRATION_PORT" "9002"))
        | Some port =>
            Ret (mkConfig
                   (environ_get environ "DOMAIN_NAME" "base_domain")
                   (environ_get environ "ADMIN_NAME" "AdminServer")
                   listen_port
                   ("/u01/oracle/user_projects/domains/"
                      +:+ environ_get environ "DOMAIN_NAME" "base_domain")
                   (environ_get environ "PRODUCTION_MODE" "prod")
                   (environ_get environ "ADMINISTRATION_PORT_ENABLED" "true")
                   port)
        end
    end.
Proof.
  unfold read_environ, int.
  destruct (py_int (environ_get environ "ADMIN_LISTEN_PORT" "7001")); [|done].
  destruct (py_int (environ_get environ "ADMINISTRATION_PORT" "9002")); done.
Qed.

Lemma read_environ_cases (environ : gmap string string) :
  (exists cfg, read_environ environ = Ret cfg)
  \/ (exists v, read_environ environ = Raise (ValueError v)).
Proof.
  rewrite read_environ_eq.
  destruct (py_int (environ_get environ "ADMIN_LISTEN_PORT" "7001")); [|eauto].
  destruct (py_int (environ_get environ "ADMINISTRATION_PORT" "9002")); eauto.
Qed.

Lemma read_environ_ret (environ : gmap string string) (cfg : config) :
  read_environ environ = Ret cfg ->
  domain_name cfg = environ_get environ "DOMAIN_NAME" "base_domain"
  /\ admin_name cfg = environ_get environ "ADMIN_NAME" "AdminServer"
  /\ py_int (environ_get environ "ADMIN_LISTEN_PORT" "7001")
       = Some (admin_listen_port cfg)
  /\ domain_path cfg = "/u01/oracle/user_projects/domains/" +:+ domain_name cfg
  /\ production_mode cfg = environ_get environ "PRODUCTION_MODE" "prod"
  /\ administration_port_enabled cfg
       = environ_get environ "ADMINISTRATION_PORT_ENABLED" "true"
  /\ py_int (environ_get environ "ADMINISTRATION_PORT" "9002")
       = Some (administration_port cfg).
Proof.
  rewrite read_environ_eq.
  destruct (py_int (environ_get environ "ADMIN_LISTEN_PORT" "7001")); [|done].
  destruct (py_int (environ_get environ "ADMINISTRATION_PORT" "9002")); [|done].
  by intros [= <-].
Qed.

(** Printing the configuration issues no call: past [read_environ], a run of
    the script is a run of [configure]. *)
Lemma run_script {S} (srv : server S) (environ globals : gmap string string)
    (cfg : config) (s : S) :
  read_environ environ = Ret cfg ->
  trace (run srv (script environ globals) s)
    = trace (run srv (configure cfg globals) s)
  /\ out (run srv (script environ globals) s)
    = out (run srv (configure cfg globals) s)
  /\ final (run srv (script environ globals) s)
    = final (run srv (configure cfg globals) s).
Proof. unfold script. intros ->. done. Qed.

Lemma run_script_raise {S} (srv : server S) (environ globals : gmap string string)
    (e : pyexn) (s : S) :
  read_environ environ = Raise e ->
  run srv (script environ globals) s = mkResult [] (Uncaught e) s [].
Proof. unfold script. intros ->. done. Qed.

Lemma configure_ending (cfg : config) (globals : gmap string string) :
  wp (configure cfg globals) (ending cfg globals).
Proof.
  unfold configure, ending, steps, global.
  destruct (port_enabled cfg);
    destruct (globals !! "username") as [u|];
    destruct (globals !! "password") as [p|];
    script_tree; each_ending;
    solve [ prefix_done | reflexivity | by left | by right ].
Qed.

Lemma run_configure {S} (srv : server S) (cfg : config)
    (globals : gmap string string) (s : S) :
  ending cfg globals (trace (run srv (configure cfg globals) s))
                     (out (run srv (configure cfg globals) s)).
Proof. apply wp_run, configure_ending. Qed.

Lemma port_enabled_false (cfg : config) :
  port_enabled cfg = false <-> administration_port_enabled cfg = "false".
Proof.
  unfold port_enabled. rewrite negb_false_iff. apply String.eqb_eq.
Qed.

Lemma port_enabled_true (cfg : config) :
  port_enabled cfg = true <-> administration_port_enabled cfg <> "false".
Proof.
  unfold port_enabled. rewrite negb_true_iff. apply String.eqb_neq.
Qed.

(** Every call of a run of the script is one of [steps]. *)
Lemma trace_in_steps {S} (srv : server S) (environ globals : gmap string string)
    (cfg : config) (s : S) (P : call -> Prop) :
  read_environ environ = Ret cfg ->
  (forall username password, Forall P (steps cfg username password)) ->
  Forall P (trace (run srv (script environ globals) s)).
Proof.
  intros Hcfg HP.
  destruct (run_script srv environ globals cfg s Hcfg) as (-> & _ & _).
  destruct (run_configure srv cfg globals s) as [Hpre _].
  eapply Forall_prefix; [apply Hpre|apply HP].
Qed.

(** A run that ends in [Done] has read its configuration, found both
    credentials and issued all of [steps]. *)
Lemma done_all_steps {S} (srv : server S) (environ globals : gmap string string)
    (s : S) :
  out (run srv (script environ globals) s) = Done tt ->
  exists cfg username password,
    read_environ environ = Ret cfg
    /\ globals !! "username" = Some username
    /\ globals !! "password" = Some password
    /\ trace (run srv (script environ globals) s) = steps cfg username password.
Proof.
  intros Hdone.
  destruct (read_environ_cases environ) as [[cfg Hcfg]|[v Hv]].
  - destruct (run_script srv environ globals cfg s Hcfg) as (Ht & Ho & _).
    rewrite Ho in Hdone. rewrite Ht.
    destruct (run_configure srv cfg globals s) as [_ H].
    rewrite Hdone in H. destruct H as (Hu & Hp & H).
    by exists cfg, (default "" (globals !! "username")),
              (default "" (globals !! "password")).
  - by rewrite (run_script_raise srv environ globals _ s Hv) in Hdone.
Qed.

(** [steps] with the flag set to "false", and with any other value. *)
Lemma steps_disabled (cfg : config) (username password : string) :
  port_enabled cfg = false ->
  steps cfg username password =
    [ ReadTemplate "/u01/oracle/wlserver/common/templates/wls/wls.jar";
      SetAttr "Name" (AStr (domain_name cfg));
      SetOption "DomainName" (domain_name cfg);
      Cd "/Servers/AdminServer";
      SetAttr "Name" (AStr (admin_name cfg));
      SetAttr "ListenAddress" (AStr "");
      SetAttr "ListenPort" (AInt (admin_listen_port cfg));
      Cd ("/Security/" +:+ domain_name cfg +:+ "/User/weblogic");
      Cmo "setName" [AStr username];
      Cmo "setPassword" [AStr password];
      SetOption "OverwriteDomain" "true";
      SetOption "ServerStartMode" (production_mode cfg);
      WriteDomain (domain_path cfg);
      CloseTemplate;
      Exit ].
Proof. unfold steps. by intros ->. Qed.

Lemma steps_enabled (cfg : config) (username password : string) :
  port_enabled cfg = true ->
  steps cfg username password =
    [ ReadTemplate "/u01/oracle/wlserver/common/templates/wls/wls.jar";
      SetAttr "Name" (AStr (domain_name cfg));
      SetOption "DomainName" (domain_name cfg);
      SetAttr "AdministrationPort" (AInt (administration_port cfg));
      SetAttr "AdministrationPortEnabled" (AStr "false");
      Cd "/Servers/AdminServer";
      SetAttr "Name" (AStr (admin_name cfg));
      SetAttr "ListenAddress" (AStr "");
      SetAttr "ListenPort" (AInt (admin_listen_port cfg));
      Create (admin_name cfg) "SSL";
      Cd ("SSL/" +:+ admin_name cfg);
      SetAttr "Enabled" (AStr "True");
      Cd ("/Security/" +:+ domain_name cfg +:+ "/User/weblogic");
      Cmo "setName" [AStr username];
      Cmo "setPassword" [AStr password];
      SetOption "OverwriteDomain" "true";
      SetOption "ServerStartMode" (production_mode cfg);
      WriteDomain (domain_path cfg);
      CloseTemplate;
      Exit ].
Proof. unfold steps. by intros ->. Qed.

(** Dropping the calls of the guarded blocks from [steps] leaves the steps
    of the disabled case, whatever the flag. *)
Lemma steps_unguarded (cfg cfg' : config) (username password : string) :
  port_enabled cfg = false ->
  domain_name cfg' = domain_name cfg ->
  admin_name cfg' = admin_name cfg ->
  admin_listen_port cfg' = admin_listen_port cfg ->
  domain_path cfg' = domain_path cfg ->
  production_mode cfg' = production_mode cfg ->
  List.filter (fun c => negb (in_guarded_block c)) (steps cfg' username password)
    = steps cfg username password.
Proof.
  intros Hoff Hd Ha Hl Hp Hm. rewrite (steps_disabled cfg _ _ Hoff).
  destruct (port_enabled cfg') eqn:Hon.
  - rewrite (steps_enabled cfg' _ _ Hon), Hd, Ha, Hl, Hp, Hm. reflexivity.
  - rewrite (steps_disabled cfg' _ _ Hon), Hd, Ha, Hl, Hp, Hm. reflexivity.
Qed.

(** Changing one variable of the environment leaves the others as read. *)
Lemma environ_get_insert_ne (environ : gmap string string) (key key' v dflt : string) :
  key <> key' ->
  environ_get (<[key := v]> environ) key' dflt = environ_get environ key' dflt.
Proof. intros Hne. unfold environ_get. by rewrite lookup_insert_ne. Qed.

(** [configure] looks at ADMINISTRATION_PORT_ENABLED through the test
    [!= "false"] only. *)
Lemma configure_flag_irrelevant (cfg1 cfg2 : config) (globals : gmap string string) :
  domain_name cfg1 = domain_name cfg2 ->
  admin_name cfg1 = admin_name cfg2 ->
  admin_listen_port cfg1 = admin_listen_port cfg2 ->
  domain_path cfg1 = domain_path cfg2 ->
  production_mode cfg1 = production_mode cfg2 ->
  administration_port cfg1 = administration_port cfg2 ->
  port_enabled cfg1 = port_enabled cfg2 ->
  configure cfg1 globals = configure cfg2 globals.
Proof.
  intros Hd Ha Hl Hp Hm Hport Hon. unfold configure.
  by rewrite Hd, Ha, Hl, Hp, Hm, Hport, Hon.
Qed.

(** [configure] raises an exception of its own only for a name that is not
    bound, and only when all calls of [steps] but the last seven have been
    issued. *)
Lemma configure_uncaught (cfg : config) (globals : gmap string string) :
  wp (configure cfg globals)
     (fun t o =>
        forall e, o = Uncaught e ->
          (length (steps cfg "" "") - 7 <= length t)%nat
          /\ (globals !! "username" = None \/ globals !! "password" = None)).
Proof.
  unfold configure, steps, global.
  destruct (port_enabled cfg);
    destruct (globals !! "username") as [u|];
    destruct (globals !! "password") as [p|];
    script_tree; each_ending;
    solve [ discriminate | cbn; lia | by left | by right ].
Qed.

(** Progress of the script, call by call: each of the calls of [steps] up
    to the change to the security directory is issued as soon as the server
    has accepted the calls before it. *)
Lemma step_issued_when_accepted {S} (srv : server S)
    (environ globals : gmap string string) (cfg : config) (s : S)
    (username password : string) (k : nat) :
  read_environ environ = Ret cfg ->
  (k < length (steps cfg username password) - 7)%nat ->
  all_accepted srv (take k (steps cfg username password)) s = true ->
  trace (run srv (script environ globals) s) !! k
    = steps cfg username password !! k.
Proof.
  intros Hcfg Hk Hall.
  destruct (run_script srv environ globals cfg s Hcfg) as (Ht & Ho & _).
  rewrite Ht.
  pose proof (run_configure srv cfg globals s) as [Hpre Hend].
  pose proof (wp_run srv _ _ s (configure_uncaught cfg globals)) as Hexn.
  cbn beta in Hexn.
  set (u := default "" (globals !! "username")) in *.
  set (p := default "" (globals !! "password")) in *.
  assert (Hlen : forall u1 p1 u2 p2,
            length (steps cfg u1 p1) = length (steps cfg u2 p2)).
  { intros. unfold steps. by destruct (port_enabled cfg). }
  assert (Htake : forall n, (n < length (steps cfg u p) - 6)%nat ->
            take n (steps cfg username password) = take n (steps cfg u p)).
  { intros n. unfold steps. destruct (port_enabled cfg); cbn; intros Hn.
    - do 14 (destruct n as [|n]; [reflexivity|]). lia.
    - do 9 (destruct n as [|n]; [reflexivity|]). lia. }
  rewrite (Hlen username password u p) in Hk.
  transitivity (steps cfg u p !! k).
  - apply issued_when_accepted; [done| |].
    + intros Hshort _.
      destruct (out (run srv (configure cfg globals) s)) as [[]|e|c] eqn:Hout.
      * destruct Hend as (_ & _ & Hall'). rewrite Hall' in Hshort. lia.
      * destruct (Hexn e eq_refl) as [Hlong _].
        rewrite (Hlen "" "" u p) in Hlong. lia.
      * by exists c.
    + rewrite <- Htake by lia. exact Hall.
  - rewrite <- (lookup_take_lt (steps cfg u p) (Datatypes.S k) k) by lia.
    rewrite <- (Htake (Datatypes.S k)) by lia.
    apply lookup_take_lt. lia.
Qed.

(** Progress of the script to its end: with its configuration read and both
    credentials bound, the script returns when the server accepts its
    steps, having issued them all. *)
Lemma done_when_steps_accepted {S} (srv : server S)
    (environ globals : gmap string string) (cfg : config) (s : S)
    (username password : string) :
  read_environ environ = Ret cfg ->
  globals !! "username" = Some username ->
  globals !! "password" = Some password ->
  all_accepted srv (steps cfg username password) s = true ->
  out (run srv (script environ globals) s) = Done tt
  /\ trace (run srv (script environ globals) s) = steps cfg username password.
Proof.
  intros Hcfg Hu Hp Hall.
  destruct (run_script srv environ globals cfg s Hcfg) as (Ht & Ho & _).
  rewrite Ht, Ho.
  pose proof (run_configure srv cfg globals s) as [Hpre Hend].
  pose proof (wp_run srv _ _ s (configure_uncaught cfg globals)) as Hexn.
  cbn beta in Hexn. rewrite Hu, Hp in Hpre, Hend, Hexn.
  change (default "" (Some username)) with username in Hpre, Hend.
  change (default "" (Some password)) with password in Hpre, Hend.
  assert (Hdone : out (run srv (configure cfg globals) s) = Done tt).
  { apply (done_when_accepted srv _ s (steps cfg username password));
      [done| |done].
    intros e He. by destruct (Hexn e He) as [_ [?|?]]. }
  split; [done|]. rewrite Hdone in Hend. by destruct Hend as (_ & _ & ->).
Qed.

End DomainFacts.

(** ** The domain script: properties *)

Module DomainProperties.
Import CreateWlsDomain DomainCalls DomainFacts.

(** C2: a variable that is not set in the environment gets its documented
    default: DOMAIN_NAME "base_domain", ADMIN_NAME "AdminServer",
    ADMIN_LISTEN_PORT 7001, PRODUCTION_MODE "prod",
    ADMINISTRATION_PORT_ENABLED "true", ADMINISTRATION_PORT 9002.  Reading
    the environment either yields the configuration or stops with a
    [ValueError], and only a variable that is set (to something [int]
    rejects) can cause that. *)
Theorem unset_variable_yields_default (environ : gmap string string) :
  (forall cfg, read_environ environ = Ret cfg ->
     (environ !! "DOMAIN_NAME" = None -> domain_name cfg = "base_domain")
     /\ (environ !! "ADMIN_NAME" = None -> admin_name cfg = "AdminServer")
     /\ (environ !! "ADMIN_LISTEN_PORT" = None -> admin_listen_port cfg = 7001)
     /\ (environ !! "PRODUCTION_MODE" = None -> production_mode cfg = "prod")
     /\ (environ !! "ADMINISTRATION_PORT_ENABLED" = None ->
         administration_port_enabled cfg = "true")
     /\ (environ !! "ADMINISTRATION_PORT" = None ->
         administration_port cfg = 9002))
  /\ ((exists cfg, read_environ environ = Ret cfg)
      \/ (exists key v,
            (key = "ADMIN_LISTEN_PORT" \/ key = "ADMINISTRATION_PORT")
            /\ environ !! key = Some v
            /\ py_int v = None
            /\ read_environ environ = Raise (ValueError v))).
Proof.
  split.
  - intros cfg Hcfg.
    destruct (read_environ_ret environ cfg Hcfg)
      as (Hd & Ha & Hl & _ & Hm & He & Hp).
    unfold environ_get in *.
    repeat split; intros Hnone; rewrite Hnone in *; cbn in *;
      solve [ done | by injection Hl | by injection Hp ].
  - rewrite read_environ_eq. unfold environ_get.
    destruct (environ !! "ADMIN_LISTEN_PORT") as [v|] eqn:Hl; cbn.
    + destruct (py_int v) as [n|] eqn:Hn.
      * destruct (environ !! "ADMINISTRATION_PORT") as [w|] eqn:Hp; cbn.
        -- destruct (py_int w) eqn:Hw; [eauto|].
           right. exists "ADMINISTRATION_PORT", w. eauto.
        -- eauto.
      * right. exists "ADMIN_LISTEN_PORT", v. eauto.
    + destruct (environ !! "ADMINISTRATION_PORT") as [w|] eqn:Hp; cbn.
      * change (py_int "7001") with (Some 7001).
        destruct (py_int w) eqn:Hw; [eauto|].
        right. exists "ADMINISTRATION_PORT", w. eauto.
      * eauto.
Qed.

Lemma unset_variable_yields_default_witness :
  read_environ ∅
    = Ret (mkConfig "base_domain" "AdminServer" 7001
             "/u01/oracle/user_projects/domains/base_domain" "prod" "true" 9002)
  /\ admin_listen_port
       (mkConfig "base_domain" "AdminServer" 7001
          "/u01/oracle/user_projects/domains/base_domain" "prod" "true" 9002)
     = 7001.
Proof.
  split; [reflexivity|].
  eapply (proj1 (unset_variable_yields_default ∅)); reflexivity.
Defined.

(** C1: with ADMINISTRATION_PORT_ENABLED set to "false" no run issues
    set('AdministrationPort', ...), create(..., 'SSL') or set('Enabled', ...);
    a run that reaches the end has issued the fifteen other steps in their
    order, and these are the calls of a completed run under any other value
    of the variable with the calls of the two guarded blocks left out. *)
Theorem disabled_port_skips_port_and_ssl {S} (srv : server S)
    (environ globals : gmap string string) (s : S) :
  environ !! "ADMINISTRATION_PORT_ENABLED" = Some "false" ->
  let r := run srv (script environ globals) s in
  (forall v, SetAttr "AdministrationPort" v ∉ trace r)
  /\ (forall name, Create name "SSL" ∉ trace r)
  /\ (forall v, SetAttr "Enabled" v ∉ trace r)
  /\ (out r = Done tt ->
      exists cfg username password,
        read_environ environ = Ret cfg
        /\ globals !! "username" = Some username
        /\ globals !! "password" = Some password
        /\ trace r =
             [ ReadTemplate "/u01/oracle/wlserver/common/templates/wls/wls.jar";
               SetAttr "Name" (AStr (domain_name cfg));
               SetOption "DomainName" (domain_name cfg);
               Cd "/Servers/AdminServer";
               SetAttr "Name" (AStr (admin_name cfg));
               SetAttr "ListenAddress" (AStr "");
               SetAttr "ListenPort" (AInt (admin_listen_port cfg));
               Cd ("/Security/" +:+ domain_name cfg +:+ "/User/weblogic");
               Cmo "setName" [AStr username];
               Cmo "setPassword" [AStr password];
               SetOption "OverwriteDomain" "true";
               SetOption "ServerStartMode" (production_mode cfg);
               WriteDomain (domain_path cfg);
               CloseTemplate;
               Exit ])
  /\ (forall (v : string) (S' : Type) (srv' : server S') (s' : S'),
        let r' :=
          run srv' (script (<["ADMINISTRATION_PORT_ENABLED" := v]> environ) globals) s' in
        out r = Done tt -> out r' = Done tt ->
        trace r = List.filter (fun c => negb (in_guarded_block c)) (trace r')).
Proof.
  intros Hflag r.
  assert (Hoff : forall cfg, read_environ environ = Ret cfg -> port_enabled cfg = false).
  { intros cfg Hcfg. apply port_enabled_false.
    destruct (read_environ_ret environ cfg Hcfg) as (_ & _ & _ & _ & _ & -> & _).
    unfold environ_get. by rewrite Hflag. }
  assert (Hnone : Forall (fun c => in_guarded_block c = false) (trace r)).
  { destruct (read_environ_cases environ) as [[cfg Hcfg]|[v Hv]].
    - apply (trace_in_steps srv environ globals cfg s _ Hcfg).
      intros u p. rewrite (steps_disabled cfg u p (Hoff cfg Hcfg)).
      repeat constructor.
    - subst r. rewrite (run_script_raise srv environ globals _ s Hv). constructor. }
  rewrite Forall_forall in Hnone.
  split; [|split; [|split; [|split]]].
  - intros v Hin. by apply Hnone in Hin.
  - intros name Hin. by apply Hnone in Hin.
  - intros v Hin. by apply Hnone in Hin.
  - intros Hdone.
    destruct (done_all_steps srv environ globals s Hdone)
      as (cfg & u & p & Hcfg & Hu & Hp & Ht).
    exists cfg, u, p. repeat split; try done.
    subst r. rewrite Ht. apply steps_disabled, Hoff, Hcfg.
  - intros v S' srv' s' r' Hdone Hdone'.
    destruct (done_all_steps srv environ globals s Hdone)
      as (cfg & u & p & Hcfg & Hu & Hp & Ht).
    destruct (done_all_steps srv' _ globals s' Hdone')
      as (cfg' & u' & p' & Hcfg' & Hu' & Hp' & Ht').
    subst r r'. rewrite Ht, Ht'.
    assert (u' = u) as -> by congruence.
    assert (p' = p) as -> by congruence.
    destruct (read_environ_ret environ cfg Hcfg)
      as (Hd & Ha & Hl & Hpath & Hm & _ & _).
    destruct (read_environ_ret _ cfg' Hcfg')
      as (Hd' & Ha' & Hl' & Hpath' & Hm' & _ & _).
    rewrite environ_get_insert_ne in Hd', Ha', Hl', Hm' by done.
    symmetry. apply steps_unguarded; [by apply Hoff|congruence..].
Qed.

Lemma disabled_port_skips_port_and_ssl_witness :
  let environ : gmap string string := {["ADMINISTRATION_PORT_ENABLED" := "false"]} in
  let globals : gmap string string :=
    {["username" := "weblogic"; "password" := "welcome1"]} in
  let r := run Sample.accept (script environ globals) Sample.fresh in
  environ !! "ADMINISTRATION_PORT_ENABLED" = Some "false"
  /\ out r = Done tt
  /\ forall name, Create name "SSL" ∉ trace r.
Proof.
  intros environ globals r.
  split; [reflexivity|]. split; [reflexivity|].
  apply (disabled_port_skips_port_and_ssl Sample.accept environ globals Sample.fresh).
  reflexivity.
Defined.

(** C7: with [d] the value of DOMAIN_NAME ("base_domain" when unset), the
    second call of a run is set('Name', d), every setOption('DomainName', ...)
    has the value [d], every writeDomain has the path
    "/u01/oracle/user_projects/domains/" followed by [d], and a run that
    reaches the end has issued these calls: the first two right after
    readTemplate, writeDomain right before closeTemplate and exit. *)
Theorem domain_name_names_and_places_domain {S} (srv : server S)
    (environ globals : gmap string string) (s : S) :
  let d := default "base_domain" (environ !! "DOMAIN_NAME") in
  let r := run srv (script environ globals) s in
  (forall c, trace r !! 1%nat = Some c -> c = SetAttr "Name" (AStr d))
  /\ (forall v, SetOption "DomainName" v ∈ trace r -> v = d)
  /\ (forall path, WriteDomain path ∈ trace r ->
        path = "/u01/oracle/user_projects/domains/" +:+ d)
  /\ (out r = Done tt ->
      exists mid,
        trace r =
          [ ReadTemplate "/u01/oracle/wlserver/common/templates/wls/wls.jar";
            SetAttr "Name" (AStr d);
            SetOption "DomainName" d ]
          ++ mid
          ++ [ WriteDomain ("/u01/oracle/user_projects/domains/" +:+ d);
               CloseTemplate;
               Exit ]).
Proof.
  intros d r.
  destruct (read_environ_cases environ) as [[cfg Hcfg]|[v Hv]].
  - destruct (read_environ_ret environ cfg Hcfg) as (Hd & _ & _ & Hpath & _).
    change (environ_get environ "DOMAIN_NAME" "base_domain") with d in Hd.
    rewrite Hd in Hpath.
    destruct (run_script srv environ globals cfg s Hcfg) as (Ht & Ho & _).
    destruct (run_configure srv cfg globals s) as [Hpre Hend].
    fold r in Ht, Ho. rewrite <- Ht in Hpre. rewrite <- Ht, <- Ho in Hend.
    assert (Hall : Forall (fun c =>
                     (forall v, c = SetOption "DomainName" v -> v = d)
                     /\ (forall path, c = WriteDomain path ->
                           path = "/u01/oracle/user_projects/domains/" +:+ d))
                   (trace r)).
    { eapply Forall_prefix; [apply Hpre|].
      unfold steps. rewrite Hd, Hpath.
      destruct (port_enabled cfg); repeat constructor; by intros ? [=]. }
    rewrite Forall_forall in Hall.
    split; [|split; [|split]].
    + intros c Hc. apply (prefix_lookup_Some _ _ _ _ Hc) in Hpre.
      unfold steps in Hpre. cbn in Hpre. injection Hpre as <-. by rewrite Hd.
    + intros v Hin. by apply (Hall _ Hin).
    + intros path Hin. by apply (Hall _ Hin).
    + intros Hdone. rewrite Hdone in Hend. destruct Hend as (_ & _ & ->).
      unfold steps. rewrite Hd, Hpath.
      destruct (port_enabled cfg); cbn;
        match goal with
        | |- exists mid, _ :: _ :: _ :: ?rest = _ =>
            exists (take (length rest - 3) rest)
        end; reflexivity.
  - subst r. rewrite (run_script_raise srv environ globals _ s Hv). cbn.
    split; [done|]. split; [by intros ? ?%elem_of_nil|].
    split; [by intros ? ?%elem_of_nil|done].
Qed.

Lemma domain_name_names_and_places_domain_witness :
  let environ : gmap string string := {["DOMAIN_NAME" := "jms_domain"]} in
  let globals : gmap string string :=
    {["username" := "weblogic"; "password" := "welcome1"]} in
  let r := run Sample.accept (script environ globals) Sample.fresh in
  out r = Done tt
  /\ WriteDomain "/u01/oracle/user_projects/domains/jms_domain" ∈ trace r
  /\ forall path, WriteDomain path ∈ trace r ->
       path = "/u01/oracle/user_projects/domains/jms_domain".
Proof.
  intros environ globals r.
  split; [reflexivity|]. split.
  - destruct (domain_name_names_and_places_domain
                Sample.accept environ globals Sample.fresh)
      as (_ & _ & _ & H).
    destruct (H eq_refl) as [mid Hmid]. fold r in Hmid. rewrite Hmid.
    rewrite !elem_of_app. right. right. apply elem_of_cons. by left.
  - apply (domain_name_names_and_places_domain
             Sample.accept environ globals Sample.fresh).
Defined.

(** C8: no run sets 'AdministrationPortEnabled' to anything but the string
    'false'.  When ADMINISTRATION_PORT_ENABLED is not "false" (unset
    included), a call set('AdministrationPort', v) has the configured port as
    [v] and is followed at once by set('AdministrationPortEnabled', 'false'),
    unless it raised and so ended the run; a run that reaches the end has
    made the port assignment. *)
Theorem administration_port_enabled_set_to_false {S} (srv : server S)
    (environ globals : gmap string string) (s : S) :
  let r := run srv (script environ globals) s in
  (forall v, SetAttr "AdministrationPortEnabled" v ∈ trace r -> v = AStr "false")
  /\ (default "true" (environ !! "ADMINISTRATION_PORT_ENABLED") <> "false" ->
      forall port,
        py_int (default "9002" (environ !! "ADMINISTRATION_PORT")) = Some port ->
        (forall i v,
           trace r !! i = Some (SetAttr "AdministrationPort" v) ->
           v = AInt port
           /\ (trace r !! Datatypes.S i
                 = Some (SetAttr "AdministrationPortEnabled" (AStr "false"))
               \/ (length (trace r) = Datatypes.S i
                   /\ out r = CallFailed (SetAttr "AdministrationPort" v))))
        /\ (out r = Done tt ->
            SetAttr "AdministrationPort" (AInt port) ∈ trace r)).
Proof.
  intros r.
  destruct (read_environ_cases environ) as [[cfg Hcfg]|[w Hw]].
  2:{ subst r. rewrite (run_script_raise srv environ globals _ s Hw). cbn.
      split; [by intros ? ?%elem_of_nil|]. intros _ port _.
      split; [by intros [|i]|done]. }
  destruct (read_environ_ret environ cfg Hcfg) as (_ & _ & _ & _ & _ & He & Hp).
  unfold environ_get in He, Hp.
  destruct (run_script srv environ globals cfg s Hcfg) as (Ht & Ho & _).
  destruct (run_configure srv cfg globals s) as [Hpre Hend].
  fold r in Ht, Ho. rewrite <- Ht in Hpre. rewrite <- Ht, <- Ho in Hend.
  split.
  - assert (Hall : Forall (fun c => forall v,
                     c = SetAttr "AdministrationPortEnabled" v -> v = AStr "false")
                     (trace r)).
    { eapply Forall_prefix; [apply Hpre|]. unfold steps.
      destruct (port_enabled cfg); repeat constructor; by intros ? [=]. }
    rewrite Forall_forall in Hall. intros v Hin. by apply (Hall _ Hin).
  - intros Hon port Hport.
    rewrite <- He in Hon. apply port_enabled_true in Hon.
    assert (administration_port cfg = port) as Hcfgport by congruence.
    rewrite (steps_enabled cfg _ _ Hon), Hcfgport in Hpre, Hend.
    split.
    + intros i v Hi.
      pose proof (prefix_lookup_Some _ _ _ _ Hi Hpre) as Hs.
      repeat (destruct i as [|i]; cbn in Hs; try discriminate Hs).
      injection Hs as <-. split; [done|].
      pose proof (lookup_lt_Some _ _ _ Hi) as Hlen.
      destruct (decide (length (trace r) = 4%nat)) as [Hfour|Hmore].
      * right. split; [done|].
        assert (Hlast : last (trace r)
                        = Some (SetAttr "AdministrationPort" (AInt port))).
        { by rewrite last_lookup, Hfour. }
        rewrite Hlast in Hend.
        destruct (out r) as [[]|e|c].
        -- destruct Hend as (_ & _ & Hfull). by rewrite Hfull in Hfour.
        -- by destruct Hend as [?|?].
        -- congruence.
      * left. assert (Hlt : (4 < length (trace r))%nat) by lia.
        by rewrite (prefix_lookup_lt _ _ _ Hlt Hpre).
    + intros Hdone. rewrite Hdone in Hend. destruct Hend as (_ & _ & ->).
      by apply (list_elem_of_lookup_2 _ 3).
Qed.

Lemma administration_port_enabled_set_to_false_witness :
  let globals : gmap string string :=
    {["username" := "weblogic"; "password" := "welcome1"]} in
  let r := run Sample.accept (script ∅ globals) Sample.fresh in
  default "true" ((∅ : gmap string string) !! "ADMINISTRATION_PORT_ENABLED")
    <> "false"
  /\ trace r !! 3%nat = Some (SetAttr "AdministrationPort" (AInt 9002))
  /\ (trace r !! 4%nat
        = Some (SetAttr "AdministrationPortEnabled" (AStr "false"))
      \/ (length (trace r) = 4%nat
          /\ out r = CallFailed (SetAttr "AdministrationPort" (AInt 9002)))).
Proof.
  intros globals r.
  assert (Hon : default "true"
                  ((∅ : gmap string string) !! "ADMINISTRATION_PORT_ENABLED")
                <> "false").
  { intros H. vm_compute in H. discriminate H. }
  split; [exact Hon|]. split; [reflexivity|].
  destruct (administration_port_enabled_set_to_false
              Sample.accept ∅ globals Sample.fresh) as [_ H].
  destruct (H Hon 9002 eq_refl) as [Hnext _].
  apply (Hnext 3%nat (AInt 9002)). reflexivity.
Defined.

(** C9: the test is an exact comparison with the string "false".  Two
    environments that differ at most in ADMINISTRATION_PORT_ENABLED, neither
    having exactly "false" there (unset counts as "true"), give the same
    calls, the same outcome and the same final server state; a run that
    reaches the end has made the port assignment and created and enabled the
    SSL channel.  And under such a value the steps of the enabled case are
    performed: each of the thirteen calls up to the change to the security
    directory, the port assignment and the creation and enabling of the SSL
    channel among them, is issued as soon as the server has accepted the
    calls before it; with both credentials bound the script returns, all
    twenty calls issued, when the server accepts them. *)
Theorem disable_test_is_exact_match {S} (srv : server S)
    (environ1 environ2 globals : gmap string string) (s : S) :
  (forall key, key <> "ADMINISTRATION_PORT_ENABLED" ->
     environ1 !! key = environ2 !! key) ->
  default "true" (environ1 !! "ADMINISTRATION_PORT_ENABLED") <> "false" ->
  default "true" (environ2 !! "ADMINISTRATION_PORT_ENABLED") <> "false" ->
  let r1 := run srv (script environ1 globals) s in
  let r2 := run srv (script environ2 globals) s in
  trace r1 = trace r2
  /\ out r1 = out r2
  /\ final r1 = final r2
  /\ (out r1 = Done tt ->
      exists port admin,
        py_int (default "9002" (environ1 !! "ADMINISTRATION_PORT")) = Some port
        /\ admin = default "AdminServer" (environ1 !! "ADMIN_NAME")
        /\ SetAttr "AdministrationPort" (AInt port) ∈ trace r1
        /\ Create admin "SSL" ∈ trace r1
        /\ SetAttr "Enabled" (AStr "True") ∈ trace r1)
  /\ (forall listen_port port,
        py_int (default "7001" (environ1 !! "ADMIN_LISTEN_PORT")) = Some listen_port ->
        py_int (default "9002" (environ1 !! "ADMINISTRATION_PORT")) = Some port ->
        let domain := default "base_domain" (environ1 !! "DOMAIN_NAME") in
        let admin := default "AdminServer" (environ1 !! "ADMIN_NAME") in
        let enabled_case :=
          [ ReadTemplate "/u01/oracle/wlserver/common/templates/wls/wls.jar";
            SetAttr "Name" (AStr domain);
            SetOption "DomainName" domain;
            SetAttr "AdministrationPort" (AInt port);
            SetAttr "AdministrationPortEnabled" (AStr "false");
            Cd "/Servers/AdminServer";
            SetAttr "Name" (AStr admin);
            SetAttr "ListenAddress" (AStr "");
            SetAttr "ListenPort" (AInt listen_port);
            Create admin "SSL";
            Cd ("SSL/" +:+ admin);
            SetAttr "Enabled" (AStr "True");
            Cd ("/Security/" +:+ domain +:+ "/User/weblogic") ] in
        (forall k, (k < 13)%nat ->
           all_accepted srv (take k enabled_case) s = true ->
           trace r1 !! k = enabled_case !! k)
        /\ (forall username password,
              globals !! "username" = Some username ->
              globals !! "password" = Some password ->
              let closing :=
                [ Cmo "setName" [AStr username];
                  Cmo "setPassword" [AStr password];
                  SetOption "OverwriteDomain" "true";
                  SetOption "ServerStartMode"
                    (default "prod" (environ1 !! "PRODUCTION_MODE"));
                  WriteDomain ("/u01/oracle/user_projects/domains/" +:+ domain);
                  CloseTemplate;
                  Exit ] in
              all_accepted srv (enabled_case ++ closing) s = true ->
              out r1 = Done tt /\ trace r1 = enabled_case ++ closing)).
Proof.
  intros Hsame Hon1 Hon2 r1 r2.
  match goal with
  | |- ?A /\ ?B /\ ?C /\ ?D /\ _ =>
      cut (A /\ B /\ C /\ D);
      [ intros (Ha & Hb & Hc & Hd);
        refine (conj Ha (conj Hb (conj Hc (conj Hd _)))); clear Ha Hb Hc Hd | ]
  end.
  { intros listen_port port Hlp Hport domain admin enabled_case.
    pose proof (read_environ_eq environ1) as Hcfg.
    unfold environ_get in Hcfg. rewrite Hlp, Hport in Hcfg.
    match type of Hcfg with _ = Ret ?c => set (cfg := c) in * end.
    assert (Hen : port_enabled cfg = true) by by apply port_enabled_true.
    split.
    - intros k Hk Hall.
      pose proof (step_issued_when_accepted srv environ1 globals cfg s "" "" k
                    Hcfg) as H.
      rewrite (steps_enabled cfg _ _ Hen) in H.
      do 13 (destruct k as [|k]; [exact (H ltac:(cbn; lia) Hall)|]). lia.
    - intros username password Hu Hp closing Hall.
      pose proof (done_when_steps_accepted srv environ1 globals cfg s
                    username password Hcfg Hu Hp) as H.
      rewrite (steps_enabled cfg _ _ Hen) in H. exact (H Hall). }
  assert (Hget : forall key dflt, key <> "ADMINISTRATION_PORT_ENABLED" ->
            environ_get environ1 key dflt = environ_get environ2 key dflt).
  { intros key dflt Hne. unfold environ_get. by rewrite (Hsame key Hne). }
  pose proof (read_environ_eq environ1) as H1.
  pose proof (read_environ_eq environ2) as H2.
  rewrite !Hget in H1 by done.
  destruct (py_int (environ_get environ2 "ADMIN_LISTEN_PORT" "7001")) as [lp|].
  2:{ subst r1 r2.
      rewrite (run_script_raise srv environ1 globals _ s H1),
              (run_script_raise srv environ2 globals _ s H2). done. }
  destruct (py_int (environ_get environ2 "ADMINISTRATION_PORT" "9002"))
    as [port|] eqn:Hport.
  2:{ subst r1 r2.
      rewrite (run_script_raise srv environ1 globals _ s H1),
              (run_script_raise srv environ2 globals _ s H2). done. }
  destruct (run_script srv environ1 globals _ s H1) as (Ht1 & Ho1 & Hf1).
  destruct (run_script srv environ2 globals _ s H2) as (Ht2 & Ho2 & Hf2).
  fold r1 in Ht1, Ho1, Hf1. fold r2 in Ht2, Ho2, Hf2.
  match type of H1 with _ = Ret ?c => set (cfg1 := c) in * end.
  match type of H2 with _ = Ret ?c => set (cfg2 := c) in * end.
  assert (Hen1 : port_enabled cfg1 = true) by by apply port_enabled_true.
  assert (Hen2 : port_enabled cfg2 = true) by by apply port_enabled_true.
  assert (Heq : configure cfg1 globals = configure cfg2 globals).
  { apply configure_flag_irrelevant; try reflexivity. by rewrite Hen1, Hen2. }
  rewrite Heq in Ht1, Ho1, Hf1.
  split; [congruence|]. split; [congruence|]. split; [congruence|].
  intros Hdone. exists port, (environ_get environ2 "ADMIN_NAME" "AdminServer").
  split; [by rewrite <- Hport, <- (Hget "ADMINISTRATION_PORT" "9002")|].
  split; [by rewrite <- (Hget "ADMIN_NAME" "AdminServer")|].
  destruct (run_configure srv cfg2 globals s) as [_ Hend].
  rewrite <- Ht1, <- Ho1, Hdone in Hend. destruct Hend as (_ & _ & ->).
  rewrite (steps_enabled cfg2 _ _ Hen2).
  split; [by apply (list_elem_of_lookup_2 _ 3)|].
  split; [by apply (list_elem_of_lookup_2 _ 9)|].
  by apply (list_elem_of_lookup_2 _ 11).
Qed.

Lemma disable_test_is_exact_match_witness :
  let environ1 : gmap string string := {["ADMINISTRATION_PORT_ENABLED" := "FALSE"]} in
  let environ2 : gmap string string := ∅ in
  let globals : gmap string string :=
    {["username" := "weblogic"; "password" := "welcome1"]} in
  let r1 := run Sample.accept (script environ1 globals) Sample.fresh in
  trace r1 = trace (run Sample.accept (script environ2 globals) Sample.fresh)
  /\ out r1 = Done tt
  /\ trace r1 !! 3%nat = Some (SetAttr "AdministrationPort" (AInt 9002))
  /\ trace r1 !! 4%nat = Some (SetAttr "AdministrationPortEnabled" (AStr "false"))
  /\ trace r1 !! 9%nat = Some (Create "AdminServer" "SSL")
  /\ trace r1 !! 10%nat = Some (Cd "SSL/AdminServer")
  /\ trace r1 !! 11%nat = Some (SetAttr "Enabled" (AStr "True"))
  /\ length (trace r1) = 20%nat.
Proof.
  intros environ1 environ2 globals r1.
  assert (Hsame : forall key, key <> "ADMINISTRATION_PORT_ENABLED" ->
            environ1 !! key = environ2 !! key).
  { intros key Hne. subst environ1 environ2.
    by rewrite lookup_singleton_ne, lookup_empty. }
  assert (Hon1 : default "true" (environ1 !! "ADMINISTRATION_PORT_ENABLED")
                 <> "false").
  { intros H. vm_compute in H. discriminate H. }
  assert (Hon2 : default "true" (environ2 !! "ADMINISTRATION_PORT_ENABLED")
                 <> "false").
  { intros H. vm_compute in H. discriminate H. }
  assert (Hlp : py_int (default "7001" (environ1 !! "ADMIN_LISTEN_PORT"))
                = Some 7001) by (vm_compute; reflexivity).
  assert (Hport : py_int (default "9002" (environ1 !! "ADMINISTRATION_PORT"))
                  = Some 9002) by (vm_compute; reflexivity).
  destruct (disable_test_is_exact_match Sample.accept environ1 environ2 globals
              Sample.fresh Hsame Hon1 Hon2) as (Ht & _ & _ & _ & Hsteps).
  destruct (Hsteps 7001 9002 Hlp Hport) as [Hissued Hreturns].
  destruct (Hreturns "weblogic" "welcome1" eq_refl eq_refl eq_refl)
    as [Hdone Hall].
  split; [exact Ht|]. split; [exact Hdone|].
  split; [apply (Hissued 3%nat); [lia|reflexivity]|].
  split; [apply (Hissued 4%nat); [lia|reflexivity]|].
  split; [apply (Hissued 9%nat); [lia|reflexivity]|].
  split; [apply (Hissued 10%nat); [lia|reflexivity]|].
  split; [apply (Hissued 11%nat); [lia|reflexivity]|].
  fold r1 in Hall. rewrite Hall. reflexivity.
Defined.

End DomainProperties.

(** ** The messaging script: the calls it makes *)

Module QueueFacts.
Import SetupTestJMSQueue QueueCalls.

Lemma script_unfold (environ : gmap string string) :
  script environ =
    Invoke (SystemSetProperty "weblogic.security.SSL.ignoreHostnameVerification" "true")
      (fun _ =>
    Invoke (Connect "admin" "Welcome1" "t3://localhost:7001") (fun _ =>
    Invoke (Get "AdminServerName") (fun adm_name =>
    Invoke Edit (fun _ =>
    Invoke StartEdit (fun _ =>
    Print ("Server name: " +:+ adm_name) (
    Invoke (Cd "/JMSServers") (fun _ =>
    Invoke (Ls "true") (fun servers =>
    after_listing adm_name servers)))))))).
Proof. reflexivity. Qed.

(** The loop of [createJMSModule]. *)
Lemma append_object_names_wp (lst : list object_name) (l : list string)
    (R : list call -> outcome (list object_name) -> Prop) :
  (forall t c, R t (CallFailed c)) ->
  R (map (fun i => NewObjectName (target_name i)) l)
    (Done (lst ++ map (fun i => ObjectName (target_name i)) l)) ->
  wp (append_object_names lst l) R.
Proof.
  revert lst R. induction l as [|i l IH]; intros lst R Hfail Hdone; cbn.
  - by rewrite app_nil_r in Hdone.
  - split; [apply Hfail|]. intros _. apply IH.
    + intros t c. apply Hfail.
    + cbn in Hdone. by rewrite <- app_assoc.
Qed.

Lemma append_object_names_all_calls (P : call -> Prop)
    (lst : list object_name) (l : list string) :
  (forall s, P (NewObjectName s)) -> all_calls P (append_object_names lst l).
Proof.
  intros HP. revert lst. induction l as [|i l IH]; intros lst; cbn; [done|].
  split; [apply HP|]. intros _. apply IH.
Qed.

(** The step over the loop of [createJMSModule] in a [wp] goal whose
    postcondition asks nothing of a run cut short by a call. *)
Ltac over_loop :=
  apply wp_bind; apply wp_bind; apply append_object_names_wp;
  [intros; exact I|cbn [wp_then]].

Lemma after_listing_done (adm_name : string) (servers : list string) :
  wp (after_listing adm_name servers)
     (fun t o =>
        match o with
        | Done _ =>
            exists target1 servers2 module target2,
              t = provision_calls adm_name servers target1 servers2 module target2
        | Uncaught _ => False
        | CallFailed _ => True
        end).
Proof.
  unfold after_listing, provision_calls, createJMSModule, createJMSFactory,
    createJMSQueue, createDistributedJMSQueue, addMemberQueue.
  destruct servers as [|i servers];
    [rewrite bool_decide_true by done|rewrite bool_decide_false by done];
    script_tree; each_ending; try exact I.
  - over_loop. each_ending; try exact I.
    eexists _, _, _, _. unfold module_calls. cbn. rewrite <- !app_assoc.
    reflexivity.
  - over_loop. each_ending; try exact I.
    exists None. eexists _, _, _. unfold module_calls. cbn.
    rewrite <- !app_assoc. reflexivity.
Qed.

(** A run of the script never ends in an exception of the script's own,
    and one that reaches the end has issued [opening_calls] and then
    [provision_calls], with the server's first listing deciding whether the
    JMS server is created. *)
Lemma run_script_ending {S} (srv : server S) (environ : gmap string string) (s : S) :
  let r := run srv (script environ) s in
  (forall e, out r <> Uncaught e)
  /\ (out r = Done tt ->
      exists adm_name target1 servers2 module target2,
        trace r = opening_calls
                  ++ provision_calls adm_name (first_listing srv s)
                       target1 servers2 module target2).
Proof.
  rewrite script_unfold. unfold first_listing. cbn [opening_calls removelast after].
  unfold effect. cbn [run].
  repeat match goal with
         | |- context [srv ?c ?s0] =>
             let E := fresh "E" in
             destruct (srv c s0) as [?x ?s|?s] eqn:E;
             [rewrite ?E; cbn [printed issued trace out]|by cbn]
         end.
  match goal with
  | |- context [run srv (after_listing ?adm ?servers) ?st] =>
      pose proof (wp_run srv _ _ st (after_listing_done adm servers)) as H;
      cbn beta in H; split;
      [ intros e He; by rewrite He in H
      | intros Hdone; rewrite Hdone in H;
        destruct H as (target1 & servers2 & module & target2 & ->);
        by exists adm, target1, servers2, module, target2 ]
  end.
Qed.

Ltac provision_leaf :=
  unfold provision_call; repeat split; intros;
  first [ exact I | reflexivity | congruence
        | left; reflexivity | right; left; reflexivity
        | right; right; reflexivity | right; reflexivity ].

Lemma after_listing_calls (adm_name : string) (servers : list string) :
  all_calls (provision_call servers) (after_listing adm_name servers).
Proof.
  unfold after_listing, createJMSModule, createJMSFactory,
    createJMSQueue, createDistributedJMSQueue, addMemberQueue.
  destruct servers as [|i servers];
    [rewrite bool_decide_true by done|rewrite bool_decide_false by done];
    script_tree; each_ending; try provision_leaf;
    (apply all_calls_bind;
     [ apply all_calls_bind;
       [ by apply append_object_names_all_calls
       | intros; each_ending; provision_leaf ]
     | intros; each_ending; provision_leaf ]).
Qed.

(** Every run of the script stops within [opening_calls] or continues
    with calls of [after_listing]. *)
Lemma run_script_calls {S} (srv : server S) (environ : gmap string string) (s : S) :
  let r := run srv (script environ) s in
  trace r `prefix_of` opening_calls
  \/ exists rest,
       trace r = opening_calls ++ rest
       /\ Forall (provision_call (first_listing srv s)) rest.
Proof.
  rewrite script_unfold. unfold first_listing. cbn [opening_calls removelast after].
  unfold effect. cbn [run].
  repeat match goal with
         | |- context [srv ?c ?s0] =>
             let E := fresh "E" in
             destruct (srv c s0) as [?x ?s|?s] eqn:E;
             [ rewrite ?E; cbn [printed issued trace out]
             | left; cbn; repeat (apply prefix_cons); apply prefix_nil ]
         end.
  right. eexists. split; [reflexivity|].
  apply all_calls_trace, after_listing_calls.
Qed.

(** The names built for the loop of [createJMSModule] are neither creations
    nor settings of a JMS resource. *)
Lemma filter_new_object_names (f : call -> bool) (l : list string) :
  (forall s, f (NewObjectName s) = false) ->
  List.filter f (map (fun i => NewObjectName (target_name i)) l) = [].
Proof. intros Hf. induction l as [|i l IH]; cbn; [done|]. by rewrite Hf. Qed.

Lemma provision_call_literals (servers : list string) (c : call) :
  provision_call servers c -> names_are_literals c.
Proof. destruct c; cbn; tauto. Qed.

Lemma createJMSQueue_calls (jms_module_name jms_queue_name : string) :
  wp (createJMSQueue jms_module_name jms_queue_name)
     (straight_line (queue_calls jms_module_name jms_queue_name)).
Proof. unfold createJMSQueue, queue_calls. straight_line_wp. Qed.

Lemma createJMSFactory_calls (jms_module_name jms_fact_name : string) :
  wp (createJMSFactory jms_module_name jms_fact_name)
     (straight_line (factory_calls jms_module_name jms_fact_name)).
Proof. unfold createJMSFactory, factory_calls. straight_line_wp. Qed.

Lemma createDistributedJMSQueue_calls (jms_module_name jms_queue_name : string) :
  wp (createDistributedJMSQueue jms_module_name jms_queue_name)
     (straight_line (distributed_queue_calls jms_module_name jms_queue_name)).
Proof. unfold createDistributedJMSQueue, distributed_queue_calls. straight_line_wp. Qed.

(** The three functions raise no exception of their own: a run of one of
    them ends by returning or in a call that raises. *)
Lemma createJMSQueue_no_exception (jms_module_name jms_queue_name : string) :
  wp (createJMSQueue jms_module_name jms_queue_name)
     (fun _ o => forall e, o <> Uncaught e).
Proof. unfold createJMSQueue. script_tree. each_ending; discriminate. Qed.

Lemma createJMSFactory_no_exception (jms_module_name jms_fact_name : string) :
  wp (createJMSFactory jms_module_name jms_fact_name)
     (fun _ o => forall e, o <> Uncaught e).
Proof. unfold createJMSFactory. script_tree. each_ending; discriminate. Qed.

Lemma createDistributedJMSQueue_no_exception (jms_module_name jms_queue_name : string) :
  wp (createDistributedJMSQueue jms_module_name jms_queue_name)
     (fun _ o => forall e, o <> Uncaught e).
Proof. unfold createDistributedJMSQueue. script_tree. each_ending; discriminate. Qed.

End QueueFacts.

(** ** The messaging script: properties *)

Module QueueProperties.
Import SetupTestJMSQueue QueueCalls QueueFacts.

(** C3: when the listing of /JMSServers is not empty, [createJMSServer]
    issues the two calls of its check and nothing else; it issues
    cmo.createJMSServer or cmo.addTarget only after an empty listing; on an
    empty listing a run that reaches the end has created and targeted the
    server.  In the whole script no call after a non-empty first listing
    creates a JMS server. *)
Theorem existing_jms_server_is_not_recreated {S} (srv : server S)
    (adm_name jms_server_name : string) (environ : gmap string string) (s : S) :
  let r := run srv (createJMSServer adm_name jms_server_name) s in
  (forall s1 servers s2,
     srv (Cd "/JMSServers") s = Returned tt s1 ->
     srv (Ls "true") s1 = Returned servers s2 ->
     servers <> [] ->
     trace r = [Cd "/JMSServers"; Ls "true"] /\ out r = Done tt /\ final r = s2)
  /\ (forall args,
        (Cmo "createJMSServer" args ∈ trace r) \/ (Cmo "addTarget" args ∈ trace r) ->
        exists s1 s2,
          srv (Cd "/JMSServers") s = Returned tt s1
          /\ srv (Ls "true") s1 = Returned [] s2)
  /\ (forall s1 s2,
        srv (Cd "/JMSServers") s = Returned tt s1 ->
        srv (Ls "true") s1 = Returned [] s2 ->
        out r = Done tt ->
        exists target,
          trace r = [ Cd "/JMSServers"; Ls "true"; Cd "/";
                      Cmo "createJMSServer" [AStr jms_server_name];
                      Cd ("/JMSServers/" +:+ jms_server_name);
                      GetMBean ("/Servers/" +:+ adm_name);
                      Cmo "addTarget" [ABean target] ])
  /\ (first_listing srv s <> [] ->
      forall args, Cmo "createJMSServer" args ∉ trace (run srv (script environ) s)).
Proof.
  intros r. subst r. unfold createJMSServer.
  split; [|split; [|split]].
  - intros s1 servers s2 Hcd Hls Hne. cbn. rewrite Hcd. cbn. rewrite Hls.
    destruct servers as [|i servers]; [done|].
    by rewrite bool_decide_false by done.
  - intros args Hin. cbn in Hin.
    destruct (srv (Cd "/JMSServers") s) as [[] s1|s1] eqn:Hcd; cbn in Hin.
    2:{ destruct Hin as [Hin|Hin]; apply elem_of_cons in Hin as [?|Hin];
          try discriminate; by apply elem_of_nil in Hin. }
    destruct (srv (Ls "true") s1) as [servers s2|s2] eqn:Hls; cbn in Hin.
    2:{ destruct Hin as [Hin|Hin];
          repeat (apply elem_of_cons in Hin as [?|Hin]; try discriminate);
          by apply elem_of_nil in Hin. }
    destruct servers as [|i servers]; [by exists s1, s2|].
    rewrite bool_decide_false in Hin by done. cbn in Hin.
    destruct Hin as [Hin|Hin];
      repeat (apply elem_of_cons in Hin as [?|Hin]; try discriminate);
      by apply elem_of_nil in Hin.
  - intros s1 s2 Hcd Hls. cbn. rewrite Hcd. cbn. rewrite Hls.
    rewrite bool_decide_true by done. cbn.
    repeat match goal with
           | |- context [srv ?c ?s0] =>
               destruct (srv c s0) as [?x ?s|?s]; cbn; [|discriminate]
           end.
    intros _. by eexists.
  - intros Hne args Hin.
    destruct (run_script_calls srv environ s) as [Hpre|(rest & Ht & Hall)].
    + apply (elem_of_prefix _ _ _ Hin) in Hpre.
      unfold opening_calls in Hpre.
      repeat (apply elem_of_cons in Hpre as [?|Hpre]; try discriminate).
      by apply elem_of_nil in Hpre.
    + rewrite Ht in Hin. apply elem_of_app in Hin as [Hin|Hin].
      * unfold opening_calls in Hin.
        repeat (apply elem_of_cons in Hin as [?|Hin]; try discriminate).
        by apply elem_of_nil in Hin.
      * rewrite Forall_forall in Hall. apply Hall in Hin.
        destruct Hin as [Hsrv _]. by destruct (Hsrv eq_refl).
Qed.

Lemma existing_jms_server_is_not_recreated_witness :
  let s := Sample.mkState "/" ["TestJMSServer"] in
  let r := run Sample.accept (createJMSServer "AdminServer" "TestJMSServer") s in
  trace r = [Cd "/JMSServers"; Ls "true"]
  /\ out r = Done tt
  /\ final r = Sample.mkState "/JMSServers" ["TestJMSServer"].
Proof.
  intros s r.
  apply (proj1 (existing_jms_server_is_not_recreated
                  Sample.accept "AdminServer" "TestJMSServer" ∅ s)
           (Sample.mkState "/JMSServers" ["TestJMSServer"]) ["TestJMSServer"]);
    [reflexivity|reflexivity|discriminate].
Defined.

(** Running the script a second time on the server it has provisioned. *)
Example rerun_creates_no_second_server :
  let first := run Sample.accept (script ∅) Sample.fresh in
  let second := run Sample.accept (script ∅) (final first) in
  out second = Done tt
  /\ trace first !! 8%nat = Some (Cmo "createJMSServer" [AStr "TestJMSServer"])
  /\ List.filter (fun c => if c is Cmo "createJMSServer" _ then true else false)
       (trace second) = []
  /\ Sample.jms_servers (final second) = ["TestJMSServer"].
Proof. cbv zeta. repeat split; reflexivity. Qed.

(** C4 as stated fails: on a server that already has a JMS server the
    script runs to its end and its creating calls are not [creation_order];
    the first of them is the creation of the module. *)
Lemma creation_order_counterexample :
  out (run Sample.accept (script ∅) (Sample.mkState "/" ["TestJMSServer"]))
  = Done tt
  /\ List.filter is_creation
       (trace (run Sample.accept (script ∅) (Sample.mkState "/" ["TestJMSServer"])))
     <> creation_order
  /\ head (List.filter is_creation
             (trace (run Sample.accept (script ∅)
                       (Sample.mkState "/" ["TestJMSServer"]))))
     = Some (Create "TestJMSModule" "JMSSystemResource").
Proof.
  split; [reflexivity|]. split; [|reflexivity].
  intros H. vm_compute in H. discriminate H.
Qed.

(** C4, amended: in a run that reaches the end the creating calls are, in
    this order, the JMS server (only when the first listing of /JMSServers
    was empty), the module, the connection factory, the queue, the
    distributed queue, the two member queues and the two members; all of
    them come before save, activate and disconnect, which are the last three
    calls; and the environment has no part in it. *)
Theorem creation_order_with_existence_check {S} (srv : server S)
    (environ : gmap string string) (s : S) :
  let r := run srv (script environ) s in
  out r = Done tt ->
  List.filter is_creation (trace r)
  = (if first_listing srv s is [] then [Cmo "createJMSServer" [AStr "TestJMSServer"]]
     else [])
    ++ [ Create "TestJMSModule" "JMSSystemResource";
         Cmo "createConnectionFactory" [AStr "TestConnectionFactory"];
         Cmo "createQueue" [AStr "TestQueue"];
         Cmo "createDistributedQueue" [AStr "udd_queue"];
         Cmo "createQueue" [AStr "ms1@udd_queue"];
         Cmo "createQueue" [AStr "ms2@udd_queue"];
         Cmo "createDistributedQueueMember" [AStr "ms1@udd_queue"];
         Cmo "createDistributedQueueMember" [AStr "ms2@udd_queue"] ]
  /\ (exists before,
        trace r = before ++ [Save; Activate "true"; Disconnect]
        /\ List.filter is_creation before = List.filter is_creation (trace r))
  /\ (forall environ', run srv (script environ') s = r).
Proof.
  intros r Hdone.
  destruct (run_script_ending srv environ s) as [_ H].
  destruct (H Hdone) as (adm & target1 & servers2 & module & target2 & Ht).
  fold r in Ht. rewrite Ht. clear H Ht.
  unfold provision_calls, module_calls.
  split; [|split].
  - rewrite !List.filter_app.
    rewrite (filter_new_object_names is_creation servers2) by done.
    by destruct (first_listing srv s).
  - exists (opening_calls
            ++ (if first_listing srv s is []
                then server_calls adm jms_server_name target1 else [])
            ++ module_calls jms_module_name adm sub_deployment_name servers2
                 module target2
            ++ factory_calls jms_module_name factory_name
            ++ queue_calls jms_module_name queue_name
            ++ distributed_queue_calls jms_module_name "udd_queue"
            ++ queue_calls jms_module_name "ms1@udd_queue"
            ++ queue_calls jms_module_name "ms2@udd_queue"
            ++ member_calls "udd_queue" "ms1@udd_queue"
            ++ member_calls "udd_queue" "ms2@udd_queue").
    unfold module_calls. split.
    + rewrite <- !app_assoc. reflexivity.
    + rewrite !List.filter_app.
      rewrite !(filter_new_object_names is_creation servers2) by done.
      by destruct (first_listing srv s).
  - reflexivity.
Qed.

Lemma creation_order_with_existence_check_witness :
  let r := run Sample.accept (script ∅) Sample.fresh in
  out r = Done tt
  /\ List.filter is_creation (trace r) = creation_order.
Proof.
  cbv zeta. split; [reflexivity|].
  apply (creation_order_with_existence_check Sample.accept ∅ Sample.fresh).
  reflexivity.
Defined.

(** C6: the script is the same under any two environments; every connect
    of a run is the second call and has the literal credentials and target,
    and it is issued whenever the first call returned; every resource a run
    creates has its literal name. *)
Theorem connection_and_names_are_literals {S} (srv : server S)
    (environ1 environ2 : gmap string string) (s : S) :
  let r := run srv (script environ1) s in
  run srv (script environ2) s = r
  /\ (forall i user password url,
        trace r !! i = Some (Connect user password url) ->
        i = 1%nat /\ user = "admin" /\ password = "Welcome1"
        /\ url = "t3://localhost:7001")
  /\ (accepted srv
        (SystemSetProperty "weblogic.security.SSL.ignoreHostnameVerification" "true")
        s = true ->
      trace r !! 1%nat = Some (Connect "admin" "Welcome1" "t3://localhost:7001"))
  /\ Forall names_are_literals (trace r).
Proof.
  intros r. split; [reflexivity|]. split; [|split].
  - intros i user password url Hi.
    destruct (run_script_calls srv environ1 s) as [Hpre|(rest & Ht & Hall)];
      fold r in Hpre || fold r in Ht.
    + pose proof (prefix_lookup_Some _ _ _ _ Hi Hpre) as Ho.
      unfold opening_calls in Ho.
      repeat (destruct i as [|i]; cbn in Ho; try discriminate Ho).
      by injection Ho as <- <- <-.
    + rewrite Ht in Hi. apply lookup_app_Some in Hi as [Ho|[_ Hr]].
      * unfold opening_calls in Ho.
        repeat (destruct i as [|i]; cbn in Ho; try discriminate Ho).
        by injection Ho as <- <- <-.
      * rewrite Forall_forall in Hall.
        by destruct (Hall _ (list_elem_of_lookup_2 _ _ _ Hr)).
  - subst r. rewrite script_unfold. unfold accepted. cbn [run].
    destruct (srv (SystemSetProperty _ _) s) as [x s1|s1]; [|done].
    intros _. cbn [issued trace].
    by destruct (srv (Connect _ _ _) s1).
  - destruct (run_script_calls srv environ1 s) as [Hpre|(rest & Ht & Hall)];
      fold r in Hpre || fold r in Ht.
    + eapply Forall_prefix; [apply Hpre|].
      unfold opening_calls. by repeat constructor.
    + rewrite Ht. apply Forall_app. split.
      * unfold opening_calls. by repeat constructor.
      * eapply Forall_impl; [apply Hall|]. apply provision_call_literals.
Qed.

Lemma connection_and_names_are_literals_witness :
  let r := run Sample.accept (script {["ADMIN_NAME" := "other"]}) Sample.fresh in
  trace r !! 1%nat = Some (Connect "admin" "Welcome1" "t3://localhost:7001").
Proof.
  cbv zeta.
  apply (connection_and_names_are_literals Sample.accept
           {["ADMIN_NAME" := "other"]} ∅ Sample.fresh).
  reflexivity.
Defined.

(** C10: a queue and a connection factory get the JNDI name "jms/" followed
    by their name and the sub-deployment "TestJMSSubdeployment"; a
    distributed queue gets the JNDI name "jms/" followed by its name and no
    sub-deployment.  Each of the three functions issues its calls in the
    order given, each call as soon as the server has accepted the calls
    before it, and nothing else; it returns when the server accepts them
    all.  A run of the script in which no call raises reaches the end, and
    these are the settings it has made, resource by resource. *)
Theorem jndi_names_and_sub_deployments {S} (srv : server S)
    (jms_module_name name : string) (environ : gmap string string) (s : S) :
  (let r := run srv (createJMSQueue jms_module_name name) s in
   let calls :=
     [ Cd (getJMSModulePath jms_module_name);
       Cmo "createQueue" [AStr name];
       Cd (getJMSModulePath jms_module_name +:+ "/Queues/" +:+ name);
       Cmo "setJNDIName" [AStr ("jms/" +:+ name)];
       Cmo "setSubDeploymentName" [AStr "TestJMSSubdeployment"] ] in
   trace r `prefix_of` calls
   /\ (out r = Done tt -> trace r = calls)
   /\ (forall k, all_accepted srv (take k calls) s = true ->
         trace r !! k = calls !! k)
   /\ (all_accepted srv calls s = true -> out r = Done tt))
  /\ (let r := run srv (createJMSFactory jms_module_name name) s in
      let calls :=
        [ Cd (getJMSModulePath jms_module_name);
          Cmo "createConnectionFactory" [AStr name];
          Cd (getJMSModulePath jms_module_name +:+ "/ConnectionFactories/" +:+ name);
          Cmo "setJNDIName" [AStr ("jms/" +:+ name)];
          Cmo "setSubDeploymentName" [AStr "TestJMSSubdeployment"] ] in
      trace r `prefix_of` calls
      /\ (out r = Done tt -> trace r = calls)
      /\ (forall k, all_accepted srv (take k calls) s = true ->
            trace r !! k = calls !! k)
      /\ (all_accepted srv calls s = true -> out r = Done tt))
  /\ (let r := run srv (createDistributedJMSQueue jms_module_name name) s in
      let calls :=
        [ Cd (getJMSModulePath jms_module_name);
          Cmo "createDistributedQueue" [AStr name];
          Cd (getJMSModulePath jms_module_name +:+ "/DistributedQueues/" +:+ name);
          Cmo "setJNDIName" [AStr ("jms/" +:+ name)] ] in
      trace r `prefix_of` calls
      /\ (out r = Done tt -> trace r = calls)
      /\ (forall k, all_accepted srv (take k calls) s = true ->
            trace r !! k = calls !! k)
      /\ (all_accepted srv calls s = true -> out r = Done tt))
  /\ (let r := run srv (script environ) s in
      (forall c, out r <> CallFailed c) ->
      out r = Done tt
      /\ List.filter is_resource_setting (trace r) =
           [ Cmo "createConnectionFactory" [AStr "TestConnectionFactory"];
             Cmo "setJNDIName" [AStr "jms/TestConnectionFactory"];
             Cmo "setSubDeploymentName" [AStr "TestJMSSubdeployment"];
             Cmo "createQueue" [AStr "TestQueue"];
             Cmo "setJNDIName" [AStr "jms/TestQueue"];
             Cmo "setSubDeploymentName" [AStr "TestJMSSubdeployment"];
             Cmo "createDistributedQueue" [AStr "udd_queue"];
             Cmo "setJNDIName" [AStr "jms/udd_queue"];
             Cmo "createQueue" [AStr "ms1@udd_queue"];
             Cmo "setJNDIName" [AStr "jms/ms1@udd_queue"];
             Cmo "setSubDeploymentName" [AStr "TestJMSSubdeployment"];
             Cmo "createQueue" [AStr "ms2@udd_queue"];
             Cmo "setJNDIName" [AStr "jms/ms2@udd_queue"];
             Cmo "setSubDeploymentName" [AStr "TestJMSSubdeployment"] ]).
Proof.
  split; [|split; [|split]].
  - pose proof (wp_run srv _ _ s (createJMSQueue_calls jms_module_name name))
      as Hline.
    pose proof (wp_run srv _ _ s (createJMSQueue_no_exception jms_module_name name))
      as Hexn.
    cbn beta in Hexn.
    split; [apply Hline|]. split; [apply Hline|].
    apply (straight_line_progress srv _ s _ Hline Hexn).
  - pose proof (wp_run srv _ _ s (createJMSFactory_calls jms_module_name name))
      as Hline.
    pose proof (wp_run srv _ _ s (createJMSFactory_no_exception jms_module_name name))
      as Hexn.
    cbn beta in Hexn.
    split; [apply Hline|]. split; [apply Hline|].
    apply (straight_line_progress srv _ s _ Hline Hexn).
  - pose proof (wp_run srv _ _ s
                  (createDistributedJMSQueue_calls jms_module_name name)) as Hline.
    pose proof (wp_run srv _ _ s
                  (createDistributedJMSQueue_no_exception jms_module_name name))
      as Hexn.
    cbn beta in Hexn.
    split; [apply Hline|]. split; [apply Hline|].
    apply (straight_line_progress srv _ s _ Hline Hexn).
  - intros r Hcalls.
    destruct (run_script_ending srv environ s) as [Hexn H]. fold r in Hexn, H.
    assert (Hdone : out r = Done tt).
    { destruct (out r) as [[]|e|c] eqn:Ho;
        [done|by destruct (Hexn e)|by destruct (Hcalls c)]. }
    split; [exact Hdone|].
    destruct (H Hdone) as (adm & target1 & servers2 & module & target2 & Ht).
    rewrite Ht. clear H Ht.
    unfold provision_calls, module_calls.
    rewrite !List.filter_app.
    rewrite (filter_new_object_names is_resource_setting servers2) by done.
    by destruct (first_listing srv s).
Qed.

Lemma jndi_names_and_sub_deployments_witness :
  let q := run Sample.accept (createJMSQueue "TestJMSModule" "TestQueue")
             Sample.fresh in
  let f := run Sample.accept (createJMSFactory "TestJMSModule" "TestConnectionFactory")
             Sample.fresh in
  let d := run Sample.accept (createDistributedJMSQueue "TestJMSModule" "udd_queue")
             Sample.fresh in
  let r := run Sample.accept (script ∅) Sample.fresh in
  (out q = Done tt
   /\ trace q !! 3%nat = Some (Cmo "setJNDIName" [AStr "jms/TestQueue"])
   /\ trace q !! 4%nat = Some (Cmo "setSubDeploymentName" [AStr "TestJMSSubdeployment"]))
  /\ (out f = Done tt
      /\ trace f !! 3%nat = Some (Cmo "setJNDIName" [AStr "jms/TestConnectionFactory"])
      /\ trace f !! 4%nat
         = Some (Cmo "setSubDeploymentName" [AStr "TestJMSSubdeployment"]))
  /\ (out d = Done tt
      /\ trace d =
           [ Cd "/JMSSystemResources/TestJMSModule/JMSResource/TestJMSModule";
             Cmo "createDistributedQueue" [AStr "udd_queue"];
             Cd "/JMSSystemResources/TestJMSModule/JMSResource/TestJMSModule/DistributedQueues/udd_queue";
             Cmo "setJNDIName" [AStr "jms/udd_queue"] ])
  /\ (out r = Done tt
      /\ List.filter is_resource_setting (trace r) =
           [ Cmo "createConnectionFactory" [AStr "TestConnectionFactory"];
             Cmo "setJNDIName" [AStr "jms/TestConnectionFactory"];
             Cmo "setSubDeploymentName" [AStr "TestJMSSubdeployment"];
             Cmo "createQueue" [AStr "TestQueue"];
             Cmo "setJNDIName" [AStr "jms/TestQueue"];
             Cmo "setSubDeploymentName" [AStr "TestJMSSubdeployment"];
             Cmo "createDistributedQueue" [AStr "udd_queue"];
             Cmo "setJNDIName" [AStr "jms/udd_queue"];
             Cmo "createQueue" [AStr "ms1@udd_queue"];
             Cmo "setJNDIName" [AStr "jms/ms1@udd_queue"];
             Cmo "setSubDeploymentName" [AStr "TestJMSSubdeployment"];
             Cmo "createQueue" [AStr "ms2@udd_queue"];
             Cmo "setJNDIName" [AStr "jms/ms2@udd_queue"];
             Cmo "setSubDeploymentName" [AStr "TestJMSSubdeployment"] ]).
Proof.
  intros q f d r.
  destruct (jndi_names_and_sub_deployments Sample.accept
              "TestJMSModule" "TestQueue" ∅ Sample.fresh)
    as ((_ & _ & Hq & Hqdone) & _ & _ & Hr).
  destruct (jndi_names_and_sub_deployments Sample.accept
              "TestJMSModule" "TestConnectionFactory" ∅ Sample.fresh)
    as (_ & (_ & _ & Hf & Hfdone) & _ & _).
  destruct (jndi_names_and_sub_deployments Sample.accept
              "TestJMSModule" "udd_queue" ∅ Sample.fresh)
    as (_ & _ & (_ & Hd & _ & Hddone) & _).
  split; [|split; [|split]].
  - split; [apply Hqdone; reflexivity|].
    split; [apply (Hq 3%nat); reflexivity|apply (Hq 4%nat); reflexivity].
  - split; [apply Hfdone; reflexivity|].
    split; [apply (Hf 3%nat); reflexivity|apply (Hf 4%nat); reflexivity].
  - split; [apply Hddone; reflexivity|]. apply Hd, Hddone. reflexivity.
  - apply Hr. intros c Hc. vm_compute in Hc. discriminate Hc.
Defined.

End QueueProperties.

(** ** Both scripts: failure *)

Module BothScripts.

(** C5: both scripts stop at the first call that raises, with nothing
    issued after it and nothing undone, and succeed only by reaching exit()
    and disconnect() respectively. *)
Theorem fail_fast_without_rollback {S} (srv : server S)
    (environ globals : gmap string string) (s : S) :
  stops_at_first_failure srv (CreateWlsDomain.script environ globals) Exit s
  /\ stops_at_first_failure srv (SetupTestJMSQueue.script environ) Disconnect s.
Proof.
  split; apply stops_at_first_failure_intro.
  - intros Hdone.
    destruct (DomainFacts.done_all_steps srv environ globals s Hdone)
      as (cfg & u & p & _ & _ & _ & ->).
    unfold DomainCalls.steps. by destruct (CreateWlsDomain.port_enabled cfg).
  - intros e He.
    destruct (DomainFacts.read_environ_cases environ) as [[cfg Hcfg]|[v Hv]].
    + destruct (DomainFacts.run_script srv environ globals cfg s Hcfg)
        as (Ht & Ho & _).
      pose proof (DomainFacts.run_configure srv cfg globals s) as [_ Hend].
      rewrite <- Ht, <- Ho, He in Hend. by destruct Hend as [->| ->].
    + by rewrite (DomainFacts.run_script_raise srv environ globals _ s Hv).
  - intros Hdone.
    destruct (QueueFacts.run_script_ending srv environ s) as [_ H].
    destruct (H Hdone) as (adm & target1 & servers2 & module & target2 & ->).
    unfold QueueCalls.provision_calls. rewrite !app_assoc.
    by rewrite (last_app_cons _ [Activate "true"; Disconnect] Save).
  - intros e He.
    by destruct (proj1 (QueueFacts.run_script_ending srv environ s) e).
Qed.

Lemma fail_fast_without_rollback_witness :
  let r := run Sample.failing (SetupTestJMSQueue.script ∅) (5%nat, Sample.fresh) in
  out r = CallFailed (Cd "/JMSServers")
  /\ exists pre,
       trace r = pre ++ [Cd "/JMSServers"]
       /\ all_accepted Sample.failing pre (5%nat, Sample.fresh) = true
       /\ accepted Sample.failing (Cd "/JMSServers")
            (after Sample.failing pre (5%nat, Sample.fresh)) = false.
Proof.
  cbv zeta. split; [reflexivity|].
  apply (fail_fast_without_rollback Sample.failing ∅ ∅ (5%nat, Sample.fresh)).
  reflexivity.
Defined.

End BothScripts.

(** ** The messaging script: every run, also one cut short *)

Module QueueRuns.
Import SetupTestJMSQueue QueueCalls QueueFacts.

Lemma prefix_filter {A} (f : A -> bool) (t l : list A) :
  t `prefix_of` l -> List.filter f t `prefix_of` List.filter f l.
Proof. intros [k ->]. rewrite List.filter_app. by apply prefix_app_r. Qed.

(** The loop of [createJMSModule], with the runs in which building a name
    raises. *)
Lemma append_object_names_wp_each (lst : list object_name) (l : list string)
    (R : list call -> outcome (list object_name) -> Prop) :
  (forall n i, l !! n = Some i ->
     R (map (fun i => NewObjectName (target_name i)) (take (Datatypes.S n) l))
       (CallFailed (NewObjectName (target_name i)))) ->
  R (map (fun i => NewObjectName (target_name i)) l)
    (Done (lst ++ map (fun i => ObjectName (target_name i)) l)) ->
  wp (append_object_names lst l) R.
Proof.
  revert lst R. induction l as [|i l IH]; intros lst R Hfail Hdone; cbn.
  - by rewrite app_nil_r in Hdone.
  - split; [apply (Hfail 0%nat i eq_refl)|]. intros _.
    apply (IH _ (fun t o => R (NewObjectName (target_name i) :: t) o)).
    + intros n j Hj. apply (Hfail (Datatypes.S n) j Hj).
    + cbn in Hdone. by rewrite <- app_assoc.
Qed.

Lemma new_object_names_prefix (l : list string) (n : nat) (rest : list call) :
  map (fun i => NewObjectName (target_name i)) (take n l)
    `prefix_of` map (fun i => NewObjectName (target_name i)) l ++ rest.
Proof.
  apply prefix_app_r. rewrite <- (take_drop n l) at 2. rewrite map_app.
  by apply prefix_app_r.
Qed.

Ltac provision_prefix_leaf :=
  eexists _, _, _, _; unfold module_calls; rewrite <- ?app_assoc; cbn [app];
  repeat (apply prefix_cons);
  first [ apply prefix_nil
        | apply new_object_names_prefix
        | apply prefix_app; repeat (apply prefix_cons); apply prefix_nil ].

(** Whatever the server does, the calls of [after_listing] are an initial
    part of [provision_calls]. *)
Lemma after_listing_prefix (adm_name : string) (servers : list string) :
  wp (after_listing adm_name servers)
     (fun t _ =>
        exists target1 servers2 module target2,
          t `prefix_of`
            provision_calls adm_name servers target1 servers2 module target2).
Proof.
  unfold after_listing, provision_calls, createJMSModule, createJMSFactory,
    createJMSQueue, createDistributedJMSQueue, addMemberQueue.
  destruct servers as [|i servers];
    [rewrite bool_decide_true by done|rewrite bool_decide_false by done];
    script_tree; each_ending; try provision_prefix_leaf.
  - apply wp_bind, wp_bind, append_object_names_wp_each.
    + intros n i Hi. cbn [wp_then]. provision_prefix_leaf.
    + cbn [wp_then]. each_ending; provision_prefix_leaf.
  - apply wp_bind, wp_bind, append_object_names_wp_each.
    + intros n j Hj. cbn [wp_then]. provision_prefix_leaf.
    + cbn [wp_then]. each_ending; provision_prefix_leaf.
  Unshelve. all: first [exact None | exact [] | exact (MBean "")].
Qed.

(** Every run of the script has issued an initial part of [opening_calls]
    followed by [provision_calls], with the administration server's name
    and the first listing as the server gave them; a run that reaches the
    end has issued all of it. *)
Lemma run_script_prefix {S} (srv : server S) (environ : gmap string string) (s : S) :
  let r := run srv (script environ) s in
  exists target1 servers2 module target2,
    trace r `prefix_of`
      opening_calls
      ++ provision_calls (admin_server_name srv s) (first_listing srv s)
           target1 servers2 module target2
    /\ (out r = Done tt ->
        trace r =
          opening_calls
          ++ provision_calls (admin_server_name srv s) (first_listing srv s)
               target1 servers2 module target2).
Proof.
  rewrite script_unfold. unfold first_listing, admin_server_name.
  cbn [opening_calls removelast take after]. unfold effect. cbn [run].
  repeat match goal with
         | |- context [srv ?c ?s0] =>
             let E := fresh "E" in
             destruct (srv c s0) as [?x ?s|?s] eqn:E;
             [ rewrite ?E; cbn [printed issued trace out]
             | exists None, [], (MBean ""), None; split; [|done];
               apply prefix_app_r; cbn; repeat (apply prefix_cons);
               apply prefix_nil ]
         end.
  match goal with
  | |- context [run srv (after_listing ?adm ?servers) ?st] =>
      pose proof (wp_run srv _ _ st (after_listing_prefix adm servers)) as Hpre;
      pose proof (wp_run srv _ _ st (after_listing_done adm servers)) as Hdone;
      cbn beta in Hpre, Hdone;
      destruct (out (run srv (after_listing adm servers) st)) as [[]|e|c] eqn:Ho
  end.
  - destruct Hdone as (target1 & servers2 & module & target2 & Ht).
    exists target1, servers2, module, target2. rewrite Ht. by split.
  - done.
  - destruct Hpre as (target1 & servers2 & module & target2 & Hpre).
    exists target1, servers2, module, target2. split; [|done].
    by repeat (apply prefix_cons).
Qed.

(** A list of calls that is an initial part of [body ++ closing] is an
    initial part of [body], or all of [body] and an initial part of
    [closing]. *)
Lemma prefix_app_cases {A} (t body closing : list A) :
  t `prefix_of` body ++ closing ->
  t `prefix_of` body
  \/ exists b, t = body ++ b /\ b `prefix_of` closing.
Proof.
  intros [k Hk].
  destruct (decide (length t <= length body)%nat) as [Hle|Hgt].
  - left. exists (drop (length t) body).
    rewrite <- (take_drop (length t) body) at 1.
    f_equal. apply (f_equal (take (length t))) in Hk.
    rewrite take_app_le in Hk by done.
    by rewrite take_app_length in Hk.
  - right. exists (take (length t - length body) closing). split.
    + apply (f_equal (take (length t))) in Hk.
      rewrite take_app_ge in Hk by lia.
      by rewrite take_app_length in Hk.
    + apply prefix_take.
Qed.

Lemma Forall_new_object_names (P : call -> Prop) (l : list string) :
  (forall s, P (NewObjectName s)) ->
  Forall P (map (fun i => NewObjectName (target_name i)) l).
Proof. intros HP. induction l; cbn; by constructor. Qed.

(** [Forall P] over the full list of calls, piece by piece. *)
Ltac forall_calls :=
  unfold provision_calls, module_calls; rewrite ?Forall_app; repeat split;
  first [ by repeat constructor
        | by apply Forall_new_object_names
        | by destruct (first_listing _ _); repeat constructor ].

(** The full list of calls ends with save, activate and disconnect; what
    comes before holds none of the three and all the creations. *)
Lemma provision_calls_closing {S} (srv : server S) (s : S)
    (target1 : option mbean) (servers2 : list string) (module : mbean)
    (target2 : option mbean) :
  exists body,
    opening_calls
    ++ provision_calls (admin_server_name srv s) (first_listing srv s)
         target1 servers2 module target2
    = body ++ [Save; Activate "true"; Disconnect]
    /\ Forall (fun c => c <> Save /\ c <> Activate "true" /\ c <> Disconnect) body
    /\ List.filter is_creation body = creations (first_listing srv s).
Proof.
  exists (opening_calls
          ++ (if first_listing srv s is []
              then server_calls (admin_server_name srv s) jms_server_name target1
              else [])
          ++ module_calls jms_module_name (admin_server_name srv s)
               sub_deployment_name servers2 module target2
          ++ factory_calls jms_module_name factory_name
          ++ queue_calls jms_module_name queue_name
          ++ distributed_queue_calls jms_module_name "udd_queue"
          ++ queue_calls jms_module_name "ms1@udd_queue"
          ++ queue_calls jms_module_name "ms2@udd_queue"
          ++ member_calls "udd_queue" "ms1@udd_queue"
          ++ member_calls "udd_queue" "ms2@udd_queue").
  unfold provision_calls. split; [|split].
  - rewrite <- !app_assoc. reflexivity.
  - forall_calls.
  - unfold module_calls. rewrite !List.filter_app.
    rewrite (filter_new_object_names is_creation servers2) by done.
    unfold creations. by destruct (first_listing srv s).
Qed.

(** X1: in every run of the messaging script, also one cut short by a
    call that raises, the creating calls issued so far are an initial part
    of the full order (JMS server if the first listing was empty, module,
    connection factory, queue, distributed queue, member queues, members):
    nothing is created out of turn. *)
Theorem creations_are_an_initial_part_of_the_order {S} (srv : server S)
    (environ : gmap string string) (s : S) :
  List.filter is_creation (trace (run srv (script environ) s))
    `prefix_of` creations (first_listing srv s).
Proof.
  destruct (run_script_prefix srv environ s)
    as (target1 & servers2 & module & target2 & Hpre & _).
  destruct (provision_calls_closing srv s target1 servers2 module target2)
    as (body & Hfull & _ & Hcre).
  apply (prefix_filter is_creation) in Hpre.
  rewrite Hfull, List.filter_app, Hcre in Hpre. cbn in Hpre.
  by rewrite app_nil_r in Hpre.
Qed.

(** X2: save() is issued only when every creation has been issued,
    activate only after save and disconnect only after activate; so when a
    call other than these three raises, the run has not saved, activated or
    disconnected. *)
Theorem nothing_is_saved_after_a_failure {S} (srv : server S)
    (environ : gmap string string) (s : S) :
  let r := run srv (script environ) s in
  (Save ∈ trace r ->
   List.filter is_creation (trace r) = creations (first_listing srv s))
  /\ (Activate "true" ∈ trace r -> Save ∈ trace r)
  /\ (Disconnect ∈ trace r -> Activate "true" ∈ trace r)
  /\ (forall c, out r = CallFailed c ->
        c <> Save -> c <> Activate "true" -> c <> Disconnect ->
        (Save ∉ trace r) /\ (Activate "true" ∉ trace r)
        /\ (Disconnect ∉ trace r)).
Proof.
  intros r.
  destruct (run_script_prefix srv environ s)
    as (target1 & servers2 & module & target2 & Hpre & _).
  destruct (provision_calls_closing srv s target1 servers2 module target2)
    as (body & Hfull & Hnone & Hcre).
  fold r in Hpre. rewrite Hfull in Hpre. rewrite Forall_forall in Hnone.
  apply prefix_app_cases in Hpre as [Hpre|(b & Ht & Hb)].
  - assert (Hnot : forall c, c ∈ trace r ->
              c <> Save /\ c <> Activate "true" /\ c <> Disconnect).
    { intros c Hc. apply Hnone. by apply (elem_of_prefix _ _ _ Hc). }
    split; [intros H; by destruct (Hnot _ H) as (? & _)|].
    split; [intros H; by destruct (Hnot _ H) as (_ & ? & _)|].
    split; [intros H; by destruct (Hnot _ H) as (_ & _ & ?)|].
    intros c _ _ _ _. repeat split; intros H; by destruct (Hnot _ H) as (? & ? & ?).
  - assert (Hb' : b = [] \/ b = [Save] \/ b = [Save; Activate "true"]
                  \/ b = [Save; Activate "true"; Disconnect]).
    { destruct Hb as [k Hk]. destruct b as [|b1 [|b2 [|b3 [|b4 b]]]];
        simplify_eq/=; auto. }
    assert (Hin : forall c, c ∈ trace r -> c ∈ b \/
              (c <> Save /\ c <> Activate "true" /\ c <> Disconnect)).
    { intros c. rewrite Ht, elem_of_app. intros [Hc|Hc]; [right|by left].
      by apply Hnone. }
    assert (Hfilter : List.filter is_creation (trace r)
                      = creations (first_listing srv s)).
    { rewrite Ht, List.filter_app, Hcre.
      destruct Hb' as [->|[->|[->| ->]]]; cbn; by rewrite app_nil_r. }
    split; [done|].
    split.
    { intros H. rewrite Ht, elem_of_app. right.
      destruct (Hin _ H) as [Hc|(_ & ? & _)]; [|done].
      destruct Hb' as [->|[->|[->| ->]]];
        repeat (apply elem_of_cons in Hc as [?|Hc]; try discriminate);
        try (by apply elem_of_nil in Hc); apply elem_of_cons; by left. }
    split.
    { intros H. rewrite Ht, elem_of_app. right.
      destruct (Hin _ H) as [Hc|(_ & _ & ?)]; [|done].
      destruct Hb' as [->|[->|[->| ->]]];
        repeat (apply elem_of_cons in Hc as [?|Hc]; try discriminate);
        try (by apply elem_of_nil in Hc);
        apply elem_of_cons; right; apply elem_of_cons; by left. }
    intros c Hfail Hs Ha Hd.
    destruct (failure_is_last srv _ s c Hfail) as (pre & Hlast & _).
    fold r in Hlast.
    assert (b = []) as ->.
    { assert (Hl : last (trace r) = Some c) by (rewrite Hlast; apply last_snoc).
      rewrite Ht in Hl.
      destruct Hb' as [->|[->|[->| ->]]]; [done|..];
        rewrite last_app in Hl; cbn in Hl; congruence. }
    rewrite app_nil_r in Ht.
    repeat split; intros H; rewrite Ht in H; by destruct (Hnone _ H) as (? & ? & ?).
Qed.

Lemma nothing_is_saved_after_a_failure_witness :
  let r := run Sample.failing (script ∅) (20%nat, Sample.fresh) in
  out r = CallFailed (Cd "/SystemResources/TestJMSModule/SubDeployments/TestJMSSubdeployment")
  /\ (Save ∉ trace r) /\ (Activate "true" ∉ trace r) /\ (Disconnect ∉ trace r).
Proof.
  cbv zeta. split; [reflexivity|].
  destruct (nothing_is_saved_after_a_failure Sample.failing ∅
              (20%nat, Sample.fresh)) as (_ & _ & _ & H).
  apply (H _ eq_refl); discriminate.
Defined.

(** X3: every call of the messaging script that changes the configuration
    comes after edit() and startEdit(), which are the fourth and fifth call
    of the run. *)
Theorem changes_are_made_in_an_edit_session {S} (srv : server S)
    (environ : gmap string string) (s : S) :
  let r := run srv (script environ) s in
  forall i c,
    trace r !! i = Some c ->
    is_modifying c = true ->
    trace r !! 3%nat = Some Edit
    /\ trace r !! 4%nat = Some StartEdit
    /\ (4 < i)%nat.
Proof.
  intros r i c Hi Hmod.
  destruct (run_script_calls srv environ s) as [Hpre|(rest & Ht & _)];
    fold r in Hpre || fold r in Ht.
  - pose proof (prefix_lookup_Some _ _ _ _ Hi Hpre) as Ho.
    unfold opening_calls in Ho.
    repeat (destruct i as [|i]; cbn in Ho; try discriminate Ho);
      injection Ho as <-; discriminate Hmod.
  - rewrite Ht. split; [done|]. split; [done|].
    rewrite Ht in Hi. apply lookup_app_Some in Hi as [Ho|[Hlen _]].
    + unfold opening_calls in Ho.
      repeat (destruct i as [|i]; cbn in Ho; try discriminate Ho);
        injection Ho as <-; discriminate Hmod.
    + cbn in Hlen. lia.
Qed.

Lemma changes_are_made_in_an_edit_session_witness :
  let r := run Sample.accept (script ∅) Sample.fresh in
  trace r !! 8%nat = Some (Cmo "createJMSServer" [AStr "TestJMSServer"])
  /\ trace r !! 4%nat = Some StartEdit.
Proof.
  cbv zeta. split; [reflexivity|].
  eapply (changes_are_made_in_an_edit_session Sample.accept ∅ Sample.fresh 8);
    reflexivity.
Defined.

(** X4: the server that the JMS server and the JMS module are targeted at
    is looked up under the name the domain reported for
    get('AdminServerName'): every getMBean of a run has the path
    "/Servers/" or "Servers/" followed by that name. *)
Theorem targets_are_looked_up_by_the_reported_name {S} (srv : server S)
    (environ : gmap string string) (s : S) :
  forall path,
    GetMBean path ∈ trace (run srv (script environ) s) ->
    path = "/Servers/" +:+ admin_server_name srv s
    \/ path = "Servers/" +:+ admin_server_name srv s.
Proof.
  intros path Hin.
  destruct (run_script_prefix srv environ s)
    as (target1 & servers2 & module & target2 & Hpre & _).
  apply (elem_of_prefix _ _ _ Hin) in Hpre.
  assert (Hall : Forall (fun c => forall p, c = GetMBean p ->
                   p = "/Servers/" +:+ admin_server_name srv s
                   \/ p = "Servers/" +:+ admin_server_name srv s)
                 (opening_calls
                  ++ provision_calls (admin_server_name srv s)
                       (first_listing srv s) target1 servers2 module target2)).
  { unfold provision_calls, module_calls, opening_calls, server_calls.
    rewrite !Forall_app. repeat split;
      try (apply Forall_new_object_names; by intros);
      try destruct (first_listing srv s);
      repeat (apply List.Forall_cons; [intros ? [=]; subst; auto|]);
      apply List.Forall_nil. }
  rewrite Forall_forall in Hall. by apply (Hall _ Hpre).
Qed.

Lemma targets_are_looked_up_by_the_reported_name_witness :
  GetMBean "Servers/AdminServer" ∈ trace (run Sample.accept (script ∅) Sample.fresh)
  /\ ("Servers/AdminServer" = "/Servers/" +:+ admin_server_name Sample.accept Sample.fresh
      \/ "Servers/AdminServer" = "Servers/" +:+ admin_server_name Sample.accept Sample.fresh).
Proof.
  assert (H : GetMBean "Servers/AdminServer"
              ∈ trace (run Sample.accept (script ∅) Sample.fresh)).
  { by apply (list_elem_of_lookup_2 _ 16). }
  split; [exact H|].
  exact (targets_are_looked_up_by_the_reported_name Sample.accept ∅ Sample.fresh _ H).
Defined.

Lemma createJMSModule_unfold (jms_module_name adm_name sub_deployment_name : string) :
  createJMSModule jms_module_name adm_name sub_deployment_name =
    Print ("Creating JMS module " +:+ jms_module_name) (
    Invoke (Cd "/JMSServers") (fun _ =>
    Invoke (Ls "true") (fun jms_servers =>
    module_after_listing jms_module_name adm_name sub_deployment_name jms_servers))).
Proof. reflexivity. Qed.

Lemma module_after_listing_calls
    (jms_module_name adm_name sub_deployment_name : string)
    (jms_servers : list string) :
  wp (module_after_listing jms_module_name adm_name sub_deployment_name jms_servers)
     (fun t o =>
        exists module target,
          Cd "/JMSServers" :: Ls "true" :: t
            `prefix_of` module_calls jms_module_name adm_name sub_deployment_name
                          jms_servers module target
          /\ (o = Done tt ->
              Cd "/JMSServers" :: Ls "true" :: t
              = module_calls jms_module_name adm_name sub_deployment_name
                  jms_servers module target)
          /\ forall e, o <> Uncaught e).
Proof.
  unfold module_after_listing, module_calls.
  script_tree; each_ending;
    try (exists (MBean ""), None; split; [|split; [done|done]];
         cbn [app]; repeat (apply prefix_cons); apply prefix_nil).
  all: try (eexists _, _; split; [|split; [done|done]];
            cbn [app]; repeat (apply prefix_cons); apply prefix_nil).
  apply wp_bind, append_object_names_wp_each.
  - intros n i Hi. cbn [wp_then]. eexists _, _. split; [|split; [done|done]].
    cbn [app]. repeat (apply prefix_cons). apply new_object_names_prefix.
  - cbn [wp_then]. each_ending; eexists _, _;
      (split;
       [ cbn [app]; repeat (apply prefix_cons); apply prefix_app;
         repeat (apply prefix_cons); apply prefix_nil
       | split; [first [done|intros _; reflexivity]|done] ]).
Qed.

(** X5: [createJMSModule] targets the sub-deployment at exactly the JMS
    servers of its own listing: set('Targets', ...) gets one ObjectName
    "com.bea:Name=<server>,Type=JMSServer" per listed server, in the order
    of the listing (none for an empty listing), and it is issued only as the
    last call, after every name was built; a run that reaches the end has
    issued the calls below. *)
Theorem module_targets_every_listed_server {S} (srv : server S)
    (jms_module_name adm_name sub_deployment_name : string)
    (s s1 s2 : S) (jms_servers : list string) :
  srv (Cd "/JMSServers") s = Returned tt s1 ->
  srv (Ls "true") s1 = Returned jms_servers s2 ->
  let r := run srv (createJMSModule jms_module_name adm_name sub_deployment_name) s in
  let targets :=
    AObjectNames
      (map (fun i => ObjectName ("com.bea:Name=" +:+ i +:+ ",Type=JMSServer"))
         jms_servers) in
  (forall v, SetAttr "Targets" v ∈ trace r ->
     v = targets /\ last (trace r) = Some (SetAttr "Targets" targets))
  /\ (out r = Done tt ->
      exists module target,
        trace r =
          [ Cd "/JMSServers"; Ls "true"; Cd "/";
            Create jms_module_name "JMSSystemResource";
            GetMBean ("Servers/" +:+ adm_name);
            OnBean module "addTarget" [ABean target];
            Cd ("/SystemResources/" +:+ jms_module_name);
            OnBean module "createSubDeployment" [AStr sub_deployment_name];
            Cd ("/SystemResources/" +:+ jms_module_name +:+ "/SubDeployments/"
                +:+ sub_deployment_name) ]
          ++ map (fun i => NewObjectName ("com.bea:Name=" +:+ i +:+ ",Type=JMSServer"))
               jms_servers
          ++ [SetAttr "Targets" targets]).
Proof.
  intros Hcd Hls r targets.
  pose proof (wp_run srv _ _ s2
                (module_after_listing_calls jms_module_name adm_name
                   sub_deployment_name jms_servers))
    as (module & target & Hpre & Hdone & _).
  assert (Ht : trace r
            = Cd "/JMSServers" :: Ls "true"
              :: trace (run srv (module_after_listing jms_module_name adm_name
                                   sub_deployment_name jms_servers) s2)).
  { subst r. rewrite createJMSModule_unfold. cbn [run]. rewrite Hcd.
    cbn [printed issued trace run]. by rewrite Hls. }
  assert (Ho : out r
            = out (run srv (module_after_listing jms_module_name adm_name
                              sub_deployment_name jms_servers) s2)).
  { subst r. rewrite createJMSModule_unfold. cbn [run]. rewrite Hcd.
    cbn [printed issued out run]. by rewrite Hls. }
  rewrite <- Ht in Hpre, Hdone. rewrite <- Ho in Hdone.
  split.
  - intros v Hin. unfold module_calls in Hpre.
    rewrite app_assoc in Hpre.
    apply prefix_app_cases in Hpre as [Hpre|(b & Hb & Hpre)].
    + apply (elem_of_prefix _ _ _ Hin) in Hpre.
      apply elem_of_app in Hpre as [Hpre|Hpre].
      * repeat (apply elem_of_cons in Hpre as [?|Hpre]; try discriminate).
        by apply elem_of_nil in Hpre.
      * apply list_elem_of_In, in_map_iff in Hpre as (? & ? & _). discriminate.
    + assert (Hb' : b = [] \/ b = [SetAttr "Targets" targets]).
      { destruct Hpre as [k Hk]. destruct b as [|b1 [|b2 b]]; [by left| |done].
        right. by injection Hk as <-. }
      rewrite Hb in Hin. apply elem_of_app in Hin as [Hin|Hin].
      * apply elem_of_app in Hin as [Hin|Hin].
        -- repeat (apply elem_of_cons in Hin as [?|Hin]; try discriminate).
           by apply elem_of_nil in Hin.
        -- apply list_elem_of_In, in_map_iff in Hin as (? & ? & _). discriminate.
      * destruct Hb' as [-> | ->]; [by apply elem_of_nil in Hin|].
        apply list_elem_of_singleton in Hin. injection Hin as ->.
        split; [done|]. rewrite Hb. apply last_snoc.
  - intros H. exists module, target. by rewrite (Hdone H).
Qed.

Lemma module_targets_every_listed_server_witness :
  let s := Sample.mkState "/" ["JMS1"; "JMS2"] in
  let r := run Sample.accept
             (createJMSModule "TestJMSModule" "AdminServer" "TestJMSSubdeployment") s in
  last (trace r)
  = Some (SetAttr "Targets"
            (AObjectNames [ ObjectName "com.bea:Name=JMS1,Type=JMSServer";
                            ObjectName "com.bea:Name=JMS2,Type=JMSServer" ])).
Proof.
  intros s r.
  apply (proj1 (module_targets_every_listed_server Sample.accept
                  "TestJMSModule" "AdminServer" "TestJMSSubdeployment"
                  s (Sample.mkState "/JMSServers" ["JMS1"; "JMS2"])
                  (Sample.mkState "/JMSServers" ["JMS1"; "JMS2"])
                  ["JMS1"; "JMS2"] eq_refl eq_refl)
           (AObjectNames [ ObjectName "com.bea:Name=JMS1,Type=JMSServer";
                           ObjectName "com.bea:Name=JMS2,Type=JMSServer" ])).
  by apply (list_elem_of_lookup_2 _ 11).
Defined.

Lemma addMemberQueue_calls (udd_name queue_name : string) :
  wp (addMemberQueue udd_name queue_name)
     (straight_line (member_calls udd_name queue_name)).
Proof. unfold addMemberQueue, member_calls. straight_line_wp. Qed.

(** X6: [addMemberQueue] works under the module "TestJMSModule" whatever
    the names it is given (it reads the script's [jms_module_name], it has
    no module parameter): it goes to the distributed queue of that module,
    sets the load balancing policy to 'Round-Robin' and only then creates
    the member. *)
Theorem member_is_added_under_the_script_module {S} (srv : server S)
    (udd_name queue_name : string) (s : S) :
  let r := run srv (addMemberQueue udd_name queue_name) s in
  let calls :=
    [ Cd ("/JMSSystemResources/TestJMSModule/JMSResource/TestJMSModule/DistributedQueues/"
          +:+ udd_name);
      Cmo "setLoadBalancingPolicy" [AStr "Round-Robin"];
      Cmo "createDistributedQueueMember" [AStr queue_name] ] in
  trace r `prefix_of` calls /\ (out r = Done tt -> trace r = calls).
Proof. apply (wp_run srv _ _ s (addMemberQueue_calls udd_name queue_name)). Qed.

Lemma member_is_added_under_the_script_module_witness :
  let r := run Sample.accept (addMemberQueue "udd_queue" "ms1@udd_queue")
             Sample.fresh in
  out r = Done tt
  /\ trace r =
       [ Cd "/JMSSystemResources/TestJMSModule/JMSResource/TestJMSModule/DistributedQueues/udd_queue";
         Cmo "setLoadBalancingPolicy" [AStr "Round-Robin"];
         Cmo "createDistributedQueueMember" [AStr "ms1@udd_queue"] ].
Proof.
  cbv zeta. split; [reflexivity|].
  apply (member_is_added_under_the_script_module Sample.accept
           "udd_queue" "ms1@udd_queue" Sample.fresh).
  reflexivity.
Defined.

Lemma string_length_app (a b : string) :
  String.length (a +:+ b) = (String.length a + String.length b)%nat.
Proof.
  induction a as [|c a IH]; [done|].
  change (Datatypes.S (String.length (a +:+ b))
          = Datatypes.S (String.length a + String.length b)).
  by rewrite IH.
Qed.

Lemma string_app_inj_same_length (a b x y : string) :
  String.length a = String.length b -> a +:+ x = b +:+ y -> a = b.
Proof.
  revert b. induction a as [|c a IH]; intros [|d b] Hlen H; try done.
  change (String c (a +:+ x) = String d (b +:+ y)) in H.
  cbn in Hlen. injection H as -> H. f_equal. apply IH; [lia|done].
Qed.

(** X7: [getJMSModulePath] gives different modules different paths, so the
    resources of two modules are never addressed under one path. *)
Theorem module_paths_are_distinct (jms_module_name1 jms_module_name2 : string) :
  jms_module_name1 <> jms_module_name2 ->
  getJMSModulePath jms_module_name1 <> getJMSModulePath jms_module_name2.
Proof.
  intros Hne H. apply Hne. unfold getJMSModulePath in H.
  apply (inj (String.app "/JMSSystemResources/")) in H.
  apply (string_app_inj_same_length _ _ _ _) in H; [done|].
  apply (f_equal String.length) in H.
  rewrite !string_length_app in H. cbn in H. lia.
Qed.

Lemma module_paths_are_distinct_witness :
  "TestJMSModule" <> "OtherModule"
  /\ getJMSModulePath "TestJMSModule" <> getJMSModulePath "OtherModule".
Proof.
  split; [discriminate|].
  apply module_paths_are_distinct. discriminate.
Defined.

End QueueRuns.

(** ** The domain script: every run, also one cut short *)

Module DomainRuns.
Import CreateWlsDomain DomainCalls DomainFacts.

Lemma silent_stdout {S A} (srv : server S) (p : wlst A) (s : S) :
  silent p -> stdout (run srv p s) = [].
Proof.
  revert s. induction p as [a|e|line k IH|c k IH]; intros s; cbn; try done.
  intros Hk. destruct (srv c s) as [x s'|s']; cbn; [by apply IH|done].
Qed.

Lemma configure_silent (cfg : config) (globals : gmap string string) :
  silent (configure cfg globals).
Proof.
  unfold configure, global.
  destruct (port_enabled cfg);
    destruct (globals !! "username"); destruct (globals !! "password");
    script_tree; cbn [silent]; by intros.
Qed.

(** X8: a value of ADMIN_LISTEN_PORT or ADMINISTRATION_PORT that [int]
    rejects stops the script with a ValueError before it has printed
    anything or issued any call, and the server is left untouched; for
    ADMINISTRATION_PORT this is so also when the administration port is
    disabled and the value would not be used. *)
Theorem unreadable_port_stops_the_script_at_once {S} (srv : server S)
    (environ globals : gmap string string) (s : S) :
  (forall v, environ !! "ADMIN_LISTEN_PORT" = Some v -> py_int v = None ->
     run srv (script environ globals) s = mkResult [] (Uncaught (ValueError v)) s [])
  /\ (forall v, environ !! "ADMINISTRATION_PORT" = Some v -> py_int v = None ->
        let r := run srv (script environ globals) s in
        trace r = [] /\ stdout r = [] /\ final r = s
        /\ exists w, out r = Uncaught (ValueError w)).
Proof.
  split.
  - intros v Hv Hint. apply run_script_raise.
    rewrite read_environ_eq. unfold environ_get. rewrite Hv. cbn.
    by rewrite Hint.
  - intros v Hv Hint r.
    assert (exists w, read_environ environ = Raise (ValueError w)) as [w Hw].
    { rewrite read_environ_eq. unfold environ_get. rewrite Hv.
      cbn. rewrite Hint.
      destruct (py_int (default "7001" (environ !! "ADMIN_LISTEN_PORT")));
        by eexists. }
    subst r. rewrite (run_script_raise srv environ globals _ s Hw). cbn.
    eauto.
Qed.

Lemma unreadable_port_stops_the_script_at_once_witness :
  let environ : gmap string string :=
    {["ADMINISTRATION_PORT_ENABLED" := "false"; "ADMINISTRATION_PORT" := "9002/tcp"]} in
  let r := run Sample.accept (script environ ∅) Sample.fresh in
  environ !! "ADMINISTRATION_PORT" = Some "9002/tcp"
  /\ py_int "9002/tcp" = None
  /\ trace r = [].
Proof.
  intros environ r.
  split; [reflexivity|]. split; [reflexivity|].
  apply (proj2 (unreadable_port_stops_the_script_at_once
                  Sample.accept environ ∅ Sample.fresh) "9002/tcp");
    reflexivity.
Defined.

(** X9: in every run in which the environment was readable the seven
    lines of the configuration are what the script prints, in this order,
    whatever the server does with the calls that follow; the two ports are
    printed as the integers read, not as the text of the variables. *)
Theorem configuration_is_printed_first {S} (srv : server S)
    (environ globals : gmap string string) (cfg : config) (s : S) :
  read_environ environ = Ret cfg ->
  stdout (run srv (script environ globals) s) =
    [ "domain_name                 : [" +:+ domain_name cfg +:+ "]";
      "admin_listen_port           : [" +:+ str_of_int (admin_listen_port cfg) +:+ "]";
      "domain_path                 : [" +:+ domain_path cfg +:+ "]";
      "production_mode             : [" +:+ production_mode cfg +:+ "]";
      "admin name                  : [" +:+ admin_name cfg +:+ "]";
      "administration_port_enabled : [" +:+ administration_port_enabled cfg +:+ "]";
      "administration_port         : [" +:+ str_of_int (administration_port cfg) +:+ "]" ].
Proof.
  intros Hcfg. unfold script. rewrite Hcfg. unfold print_config, print.
  cbn [wlst_bind mbind wlst_mbind mret wlst_ret run printed stdout].
  by rewrite (silent_stdout srv _ s (configure_silent cfg globals)).
Qed.

Lemma configuration_is_printed_first_witness :
  let environ : gmap string string := {["ADMIN_LISTEN_PORT" := " +07001 "]} in
  stdout (run Sample.failing (script environ ∅) (3%nat, Sample.fresh))
  = [ "domain_name                 : [base_domain]";
      "admin_listen_port           : [7001]";
      "domain_path                 : [/u01/oracle/user_projects/domains/base_domain]";
      "production_mode             : [prod]";
      "admin name                  : [AdminServer]";
      "administration_port_enabled : [true]";
      "administration_port         : [9002]" ].
Proof.
  intros environ.
  apply (configuration_is_printed_first Sample.failing environ ∅
           (mkConfig "base_domain" "AdminServer" 7001
              "/u01/oracle/user_projects/domains/base_domain" "prod" "true" 9002)
           (3%nat, Sample.fresh)).
  reflexivity.
Defined.

Ltac forall_steps tac :=
  repeat (apply List.Forall_cons; [tac|]); apply List.Forall_nil.

(** A run of [configure] without a binding for [username], or for
    [password]. *)
Lemma configure_without_username (cfg : config) (globals : gmap string string) :
  globals !! "username" = None ->
  wp (configure cfg globals)
     (fun t o =>
        Forall (fun c => (forall m args, c <> Cmo m args)
                         /\ (forall path, c <> WriteDomain path)) t
        /\ match o with
           | Done _ => False
           | Uncaught e =>
               e = NameError "username"
               /\ last t = Some (Cd ("/Security/" +:+ domain_name cfg
                                     +:+ "/User/weblogic"))
           | CallFailed _ => True
           end).
Proof.
  intros Hu. unfold configure, global. rewrite Hu.
  destruct (port_enabled cfg); script_tree; each_ending;
    first [ exact I | reflexivity
          | forall_steps ltac:(split; intros; discriminate) ].
Qed.

Lemma configure_without_password (cfg : config) (globals : gmap string string) :
  globals !! "password" = None ->
  wp (configure cfg globals)
     (fun t o =>
        Forall (fun c => (forall args, c <> Cmo "setPassword" args)
                         /\ (forall path, c <> WriteDomain path)) t
        /\ o <> Done tt).
Proof.
  intros Hp. unfold configure, global. rewrite Hp.
  destruct (port_enabled cfg); destruct (globals !! "username");
    script_tree; each_ending;
    first [ discriminate
          | forall_steps ltac:(split; intros; discriminate) ].
Qed.

(** X10: when WLST has no binding for [username], no run sets a user name
    or password or writes the domain, none succeeds, and a run in which the
    environment was readable and no call raised ends in
    NameError('username') right after the cd to the user; when only
    [password] is missing, no run sets the password or writes the domain,
    and none succeeds. *)
Theorem missing_credentials_leave_the_domain_unwritten {S} (srv : server S)
    (environ globals : gmap string string) (s : S) :
  let r := run srv (script environ globals) s in
  (globals !! "username" = None ->
   (forall m args, Cmo m args ∉ trace r)
   /\ (forall path, WriteDomain path ∉ trace r)
   /\ out r <> Done tt
   /\ (forall cfg, read_environ environ = Ret cfg ->
       (forall c, out r <> CallFailed c) ->
       out r = Uncaught (NameError "username")
       /\ last (trace r)
          = Some (Cd ("/Security/" +:+ domain_name cfg +:+ "/User/weblogic"))))
  /\ (globals !! "password" = None ->
      (forall args, Cmo "setPassword" args ∉ trace r)
      /\ (forall path, WriteDomain path ∉ trace r)
      /\ out r <> Done tt).
Proof.
  intros r.
  destruct (read_environ_cases environ) as [[cfg Hcfg]|[v Hv]].
  2:{ subst r. rewrite (run_script_raise srv environ globals _ s Hv). cbn.
      split; intros _.
      - split; [intros m args; apply not_elem_of_nil|].
        split; [intros path; apply not_elem_of_nil|].
        split; [done|]. intros cfg' Hcfg'. by rewrite Hcfg' in Hv.
      - split; [intros args; apply not_elem_of_nil|].
        split; [intros path; apply not_elem_of_nil|done]. }
  destruct (run_script srv environ globals cfg s Hcfg) as (Ht & Ho & _).
  fold r in Ht, Ho. split.
  - intros Hu.
    pose proof (wp_run srv _ _ s (configure_without_username cfg globals Hu))
      as [Hall Hout].
    rewrite <- Ht in Hall, Hout. rewrite <- Ho in Hout.
    rewrite Forall_forall in Hall.
    split; [intros m args Hin; by destruct (proj1 (Hall _ Hin) m args)|].
    split; [intros path Hin; by destruct (proj2 (Hall _ Hin) path)|].
    split; [intros Hd; by rewrite Hd in Hout|].
    intros cfg' Hcfg' Hnofail.
    assert (cfg' = cfg) as -> by congruence.
    destruct (out r) as [[]|e|c]; [done| |by destruct (Hnofail c)].
    by destruct Hout as [-> ->].
  - intros Hp.
    pose proof (wp_run srv _ _ s (configure_without_password cfg globals Hp))
      as [Hall Hout].
    rewrite <- Ht in Hall. rewrite <- Ho in Hout.
    rewrite Forall_forall in Hall.
    split; [intros args Hin; by destruct (proj1 (Hall _ Hin) args)|].
    split; [intros path Hin; by destruct (proj2 (Hall _ Hin) path)|done].
Qed.

Lemma missing_credentials_leave_the_domain_unwritten_witness :
  let r := run Sample.accept (script ∅ ∅) Sample.fresh in
  out r = Uncaught (NameError "username")
  /\ last (trace r) = Some (Cd "/Security/base_domain/User/weblogic").
Proof.
  cbv zeta.
  destruct (missing_credentials_leave_the_domain_unwritten
              Sample.accept ∅ ∅ Sample.fresh) as [H _].
  destruct (H eq_refl) as (_ & _ & _ & Hend).
  apply (Hend (mkConfig "base_domain" "AdminServer" 7001
                 "/u01/oracle/user_projects/domains/base_domain" "prod" "true" 9002)
           eq_refl).
  intros c. discriminate.
Defined.

(** X11: the administration server is always addressed under its
    template name: whatever ADMIN_NAME is, the script goes to
    /Servers/AdminServer, and the call that follows sets that server's Name
    to ADMIN_NAME ("AdminServer" when unset); the only bean the script
    creates is the SSL bean named ADMIN_NAME. *)
Theorem admin_name_renames_the_template_server {S} (srv : server S)
    (environ globals : gmap string string) (s : S) :
  let a := default "AdminServer" (environ !! "ADMIN_NAME") in
  let r := run srv (script environ globals) s in
  (forall path, Cd path ∈ trace r ->
     starts_with "/Servers/" path = true -> path = "/Servers/AdminServer")
  /\ (forall i c,
        trace r !! i = Some (Cd "/Servers/AdminServer") ->
        trace r !! Datatypes.S i = Some c ->
        c = SetAttr "Name" (AStr a))
  /\ (forall name type, Create name type ∈ trace r -> name = a /\ type = "SSL").
Proof.
  intros a r.
  destruct (read_environ_cases environ) as [[cfg Hcfg]|[v Hv]].
  2:{ subst r. rewrite (run_script_raise srv environ globals _ s Hv). cbn.
      split; [by intros ? ?%elem_of_nil|].
      split; [by intros [|i]|by intros ? ? ?%elem_of_nil]. }
  destruct (read_environ_ret environ cfg Hcfg) as (_ & Ha & _).
  change (environ_get environ "ADMIN_NAME" "AdminServer") with a in Ha.
  destruct (run_script srv environ globals cfg s Hcfg) as (Ht & _ & _).
  destruct (run_configure srv cfg globals s) as [Hpre _].
  fold r in Ht. rewrite <- Ht in Hpre. rewrite Ha in Hpre || idtac.
  assert (Hall : Forall (fun c =>
             (forall path, c = Cd path -> starts_with "/Servers/" path = true ->
                path = "/Servers/AdminServer")
             /\ (forall name type, c = Create name type -> name = a /\ type = "SSL"))
           (trace r)).
  { eapply Forall_prefix; [apply Hpre|]. unfold steps. rewrite Ha.
    destruct (port_enabled cfg); cbn [app];
      forall_steps ltac:(split; [intros ? [= <-]; try done|by intros ? ? [= <- <-]]). }
  rewrite Forall_forall in Hall.
  split; [intros path Hin; by apply (proj1 (Hall _ Hin))|].
  split; [|intros name type Hin; by apply (proj2 (Hall _ Hin))].
  intros i c Hi Hc.
  pose proof (prefix_lookup_Some _ _ _ _ Hi Hpre) as Hsi.
  pose proof (prefix_lookup_Some _ _ _ _ Hc Hpre) as Hsc.
  unfold steps in Hsi, Hsc. rewrite Ha in Hsi, Hsc.
  destruct (port_enabled cfg); cbn [app] in Hsi, Hsc;
    repeat (destruct i as [|i]; cbn in Hsi, Hsc; try discriminate Hsi);
    by injection Hsc as <-.
Qed.

Lemma admin_name_renames_the_template_server_witness :
  let environ : gmap string string := {["ADMIN_NAME" := "admin-1"]} in
  let globals : gmap string string :=
    {["username" := "weblogic"; "password" := "welcome1"]} in
  let r := run Sample.accept (script environ globals) Sample.fresh in
  trace r !! 5%nat = Some (Cd "/Servers/AdminServer")
  /\ trace r !! 6%nat = Some (SetAttr "Name" (AStr "admin-1")).
Proof.
  intros environ globals r.
  split; [reflexivity|].
  destruct (admin_name_renames_the_template_server
              Sample.accept environ globals Sample.fresh) as (_ & H & _).
  fold r in H.
  destruct (trace r !! 6%nat) as [c|] eqn:Hc; [|discriminate Hc].
  f_equal. apply (H 5%nat c); [reflexivity|exact Hc].
Defined.

(** X12: the listen port and the start mode are passed on as given, with
    no check of range or of value: in a run that reaches the end,
    set('ListenPort', n) has the integer of ADMIN_LISTEN_PORT, negative or
    beyond 65535 included, next to set('ListenAddress', ''), and
    setOption('ServerStartMode', m) has the text of PRODUCTION_MODE, next to
    setOption('OverwriteDomain', 'true'). *)
Theorem port_and_mode_are_passed_unchecked {S} (srv : server S)
    (environ globals : gmap string string) (s : S) :
  let r := run srv (script environ globals) s in
  out r = Done tt ->
  (forall v n, environ !! "ADMIN_LISTEN_PORT" = Some v -> py_int v = Some n ->
     exists i, trace r !! i = Some (SetAttr "ListenAddress" (AStr ""))
               /\ trace r !! Datatypes.S i = Some (SetAttr "ListenPort" (AInt n)))
  /\ (forall m, environ !! "PRODUCTION_MODE" = Some m ->
        exists i, trace r !! i = Some (SetOption "OverwriteDomain" "true")
                  /\ trace r !! Datatypes.S i = Some (SetOption "ServerStartMode" m)).
Proof.
  intros r Hdone.
  destruct (done_all_steps srv environ globals s Hdone)
    as (cfg & u & p & Hcfg & _ & _ & Ht).
  fold r in Ht. rewrite Ht.
  destruct (read_environ_ret environ cfg Hcfg) as (_ & _ & Hl & _ & Hm & _).
  unfold environ_get in Hl, Hm. unfold steps. split.
  - intros v n Hv Hn. rewrite Hv in Hl. cbn in Hl.
    assert (admin_listen_port cfg = n) as -> by congruence.
    destruct (port_enabled cfg); [by exists 7%nat|by exists 5%nat].
  - intros m Hmode. rewrite Hmode in Hm. cbn in Hm. rewrite Hm.
    destruct (port_enabled cfg); [by exists 15%nat|by exists 10%nat].
Qed.

Lemma port_and_mode_are_passed_unchecked_witness :
  let environ : gmap string string := {["ADMIN_LISTEN_PORT" := "-70000"]} in
  let globals : gmap string string :=
    {["username" := "weblogic"; "password" := "welcome1"]} in
  let r := run Sample.accept (script environ globals) Sample.fresh in
  out r = Done tt
  /\ exists i, trace r !! i = Some (SetAttr "ListenAddress" (AStr ""))
               /\ trace r !! Datatypes.S i = Some (SetAttr "ListenPort" (AInt (-70000))).
Proof.
  intros environ globals r.
  split; [reflexivity|].
  apply (proj1 (port_and_mode_are_passed_unchecked
                  Sample.accept environ globals Sample.fresh eq_refl) "-70000");
    reflexivity.
Defined.

(** X13: the domain script never looks at what a call returned: the calls
    of two runs with the same environment and globals against any two
    servers agree up to the shorter run, and are the same when both runs
    reach the end. *)
Theorem calls_do_not_depend_on_the_server {S1 S2} (srv1 : server S1)
    (srv2 : server S2) (environ globals : gmap string string)
    (s1 : S1) (s2 : S2) :
  let r1 := run srv1 (script environ globals) s1 in
  let r2 := run srv2 (script environ globals) s2 in
  (trace r1 `prefix_of` trace r2 \/ trace r2 `prefix_of` trace r1)
  /\ (out r1 = Done tt -> out r2 = Done tt -> trace r1 = trace r2).
Proof.
  intros r1 r2.
  destruct (read_environ_cases environ) as [[cfg Hcfg]|[v Hv]].
  2:{ subst r1 r2.
      rewrite (run_script_raise srv1 environ globals _ s1 Hv),
              (run_script_raise srv2 environ globals _ s2 Hv). cbn.
      split; [by left|done]. }
  destruct (run_script srv1 environ globals cfg s1 Hcfg) as (Ht1 & Ho1 & _).
  destruct (run_script srv2 environ globals cfg s2 Hcfg) as (Ht2 & Ho2 & _).
  destruct (run_configure srv1 cfg globals s1) as [Hpre1 Hend1].
  destruct (run_configure srv2 cfg globals s2) as [Hpre2 Hend2].
  fold r1 in Ht1, Ho1. fold r2 in Ht2, Ho2.
  rewrite <- Ht1 in Hpre1, Hend1. rewrite <- Ho1 in Hend1.
  rewrite <- Ht2 in Hpre2, Hend2. rewrite <- Ho2 in Hend2.
  split; [apply (prefix_weak_total _ _ _ Hpre1 Hpre2)|].
  intros Hd1 Hd2. rewrite Hd1 in Hend1. rewrite Hd2 in Hend2.
  destruct Hend1 as (_ & _ & ->). by destruct Hend2 as (_ & _ & ->).
Qed.

Lemma calls_do_not_depend_on_the_server_witness :
  let globals : gmap string string :=
    {["username" := "weblogic"; "password" := "welcome1"]} in
  trace (run Sample.failing (script ∅ globals) (30%nat, Sample.fresh))
  = trace (run Sample.accept (script ∅ globals) Sample.fresh).
Proof.
  intros globals.
  apply (calls_do_not_depend_on_the_server Sample.failing Sample.accept
           ∅ globals (30%nat, Sample.fresh) Sample.fresh); reflexivity.
Defined.

End DomainRuns.
